(** * Menu catalog and conversational order extraction

    A shallow embedding of [menu_integration.py] (the menu manager
    [OishiiMenuManager] and the [OrderProcessor]) and of the order path of
    [enhanced_restaurant_bot.py] ([EnhancedOrderProcessor.create_order_data]
    and the [on_client_disconnected] handler), with the properties the
    specification states about them.  The remaining queries of the menu
    manager, the system prompt, [extract_customer_info], the loading of the
    menu and the order path of [restaurant_bot.py] follow, with properties
    read off the code.

    Conventions of the embedding.
    - Python [str] values are [string]s of 8-bit characters; case folding
      ([str.lower]) and the regular-expression classes [\w] and [\s] are
      the ASCII ones.  Menu names and the phrase tables of the source are
      ASCII.  What is said in a call is free text: on a character beyond
      ASCII Python reads the Unicode classes, which are not embedded.  A
      statement that rests on [\w], [\s], [\d], [\b] or [str.title] for
      the text of a call is therefore stated for text that [isascii]
      accepts, where the classes embedded here are the ones Python
      reads.
    - Python [dict]s whose iteration order matters are association lists
      with the insertion discipline of [dict.__setitem__].
    - JSON numbers are [number]s: an [int] is a [Z], a [float] is a binary64
      primitive float.
    - The webhook and the clock are arguments of the functions that use
      them. *)

From Stdlib Require Import List Bool Arith ZArith Lia.
From Stdlib Require Import Ascii String DecimalString.
From Stdlib Require Import PrimFloat SpecFloat FloatOps.
Import ListNotations.

Set Warnings "-inexact-float".

Local Open Scope string_scope.
Local Open Scope list_scope.

(** ** Python strings *)

Module PyStr.

(** [c.lower()] on one ASCII character. *)
Definition lower_char (c : ascii) : ascii :=
  let n := nat_of_ascii c in
  if (65 <=? n)%nat && (n <=? 90)%nat then ascii_of_nat (n + 32) else c.

(** [s.lower()]. *)
Fixpoint lower (s : string) : string :=
  match s with
  | EmptyString => EmptyString
  | String c s' => String (lower_char c) (lower s')
  end.

(** [p in s] for two strings: some suffix of [s] starts with [p]. *)
Fixpoint str_in (p s : string) : bool :=
  String.prefix p s ||
  match s with
  | EmptyString => false
  | String _ s' => str_in p s'
  end.

(** [Py_UNICODE_ISSPACE] on ASCII: what [str.split()] and [\s] treat as
    white space (TAB, LF, VT, FF, CR, FS, GS, RS, US and the space).  The
    white space beyond ASCII (the no-break space and the like) is not
    embedded. *)
Definition is_space (c : ascii) : bool :=
  let n := nat_of_ascii c in
  ((9 <=? n)%nat && (n <=? 13)%nat) ||
  ((28 <=? n)%nat && (n <=? 32)%nat).

(** The class [\w] on ASCII: letters, digits and the underscore.  The
    letters and digits beyond ASCII are not embedded. *)
Definition is_word (c : ascii) : bool :=
  let n := nat_of_ascii c in
  ((48 <=? n)%nat && (n <=? 57)%nat) ||
  ((65 <=? n)%nat && (n <=? 90)%nat) ||
  (n =? 95)%nat ||
  ((97 <=? n)%nat && (n <=? 122)%nat).

(** Every character of [s] satisfies [f]. *)
Fixpoint all_chars (f : ascii -> bool) (s : string) : bool :=
  match s with
  | EmptyString => true
  | String c s' => f c && all_chars f s'
  end.

(** [s.isascii()]: every character of [s] is below 128.  On such a text
    [is_space] and [is_word] are the classes [\s] and [\w] of [re]. *)
Definition is_ascii (c : ascii) : bool := (nat_of_ascii c <? 128)%nat.

Definition isascii (s : string) : bool := all_chars is_ascii s.

(** The longest prefix of [s] whose characters satisfy [f], and the rest. *)
Fixpoint span (f : ascii -> bool) (s : string) : string * string :=
  match s with
  | EmptyString => (EmptyString, EmptyString)
  | String c s' =>
      if f c then let (a, b) := span f s' in (String c a, b)
      else (EmptyString, s)
  end.

(** [s.split()]: the maximal runs of characters that are not white space.
    [cur] is the run being read. *)
Fixpoint split_from (cur : string) (s : string) : list string :=
  match s with
  | EmptyString =>
      match cur with EmptyString => [] | _ => [cur] end
  | String c s' =>
      if is_space c then
        match cur with
        | EmptyString => split_from EmptyString s'
        | _ => cur :: split_from EmptyString s'
        end
      else split_from (cur ++ String c EmptyString) s'
  end.

Definition split (s : string) : list string := split_from EmptyString s.

(** [sep.join(parts)]. *)
Definition join (sep : string) (parts : list string) : string :=
  String.concat sep parts.

End PyStr.

(** ** Python numbers *)

Module PyNum.

(** A JSON number as Python reads it. *)
Inductive number : Type :=
| PyInt (z : Z)
| PyFloat (f : float).

(** The exception arithmetic on these values can raise. *)
Inductive py_error : Type :=
| OverflowError.

(** The outcome of an expression that may raise. *)
Inductive result (A : Type) : Type :=
| Ok (a : A)
| Raise (e : py_error).

Arguments Ok {A} a.
Arguments Raise {A} e.

Definition bind {A B : Type} (r : result A) (k : A -> result B) : result B :=
  match r with
  | Ok a => k a
  | Raise e => Raise e
  end.

Notation "x <- r ;; k" := (bind r (fun x => k))
  (at level 61, r at next level, right associativity).

(** [float(z)] for an [int]: the nearest binary64 value, ties to even;
    [OverflowError] when that value is not finite. *)
Definition float_of_int (z : Z) : result float :=
  match binary_normalize prec emax z 0 false with
  | S754_infinity _ => Raise OverflowError
  | sf => Ok (SF2Prim sf)
  end.

(** [a * b]. *)
Definition num_mul (a b : number) : result number :=
  match a, b with
  | PyInt x, PyInt y => Ok (PyInt (x * y))
  | PyInt x, PyFloat y => fx <- float_of_int x ;; Ok (PyFloat (fx * y))
  | PyFloat x, PyInt y => fy <- float_of_int y ;; Ok (PyFloat (x * fy))
  | PyFloat x, PyFloat y => Ok (PyFloat (x * y))
  end.

(** [a + b]. *)
Definition num_add (a b : number) : result number :=
  match a, b with
  | PyInt x, PyInt y => Ok (PyInt (x + y))
  | PyInt x, PyFloat y => fx <- float_of_int x ;; Ok (PyFloat (fx + y))
  | PyFloat x, PyInt y => fy <- float_of_int y ;; Ok (PyFloat (x + fy))
  | PyFloat x, PyFloat y => Ok (PyFloat (x + y))
  end.

(** The integer nearest to [n / d] for [0 < d], ties to the even one. *)
Definition div_half_even (n d : Z) : Z :=
  let q := (n / d)%Z in
  match (2 * (n mod d) ?= d)%Z with
  | Lt => q
  | Gt => (q + 1)%Z
  | Eq => if Z.even q then q else (q + 1)%Z
  end.

(** [round(x, 2)] for a [float]: the exact value of [x] is rounded to a
    whole number of hundredths, ties to even, and the result is the binary64
    value nearest to that decimal.  Zeros, infinities and NaN round to
    themselves. *)
Definition float_round2 (x : float) : float :=
  match Prim2SF x with
  | S754_finite s m e =>
      let hundredths :=
        if (0 <=? e)%Z then (100 * Zpos m * 2 ^ e)%Z
        else div_half_even (100 * Zpos m) (2 ^ (- e)) in
      match hundredths with
      | Z0 => if s then neg_zero else zero
      | Zpos h | Zneg h =>
          SF2Prim (SFdiv prec emax (S754_finite s h 0) (S754_finite false 100 0))
      end
  | _ => x
  end.

(** [round(x, 2)]: an [int] is returned as it is. *)
Definition round2 (x : number) : number :=
  match x with
  | PyInt z => PyInt z
  | PyFloat f => PyFloat (float_round2 f)
  end.

End PyNum.

(** ** Insertion-ordered dictionaries with string keys *)

Module PyDict.

Section Dict.
Context {V : Type}.

Definition dict : Type := list (string * V).

(** [d.get(k)]. *)
Fixpoint get (k : string) (d : dict) : option V :=
  match d with
  | [] => None
  | (k', v) :: d' => if String.eqb k' k then Some v else get k d'
  end.

(** [d[k] = v]: a key that is present keeps its place and takes the new
    value, a new key goes to the end. *)
Fixpoint set (k : string) (v : V) (d : dict) : dict :=
  match d with
  | [] => [(k, v)]
  | (k', v') :: d' =>
      if String.eqb k' k then (k', v) :: d' else (k', v') :: set k v d'
  end.

(** [d.get(k, default)]. *)
Definition get_default (k : string) (default : V) (d : dict) : V :=
  match get k d with
  | Some v => v
  | None => default
  end.
End Dict.

Arguments dict V : clear implicits.

End PyDict.

(** ** The menu manager ([OishiiMenuManager]) *)

Module Menu.
Import PyStr PyNum.

(** An item object of the menu file: [name] and [price] are read with
    [item["name"]] and [item["price"]], [desc] and [tags] with [item.get]. *)
Record MenuItem : Type := mkItem {
  name : string;
  price : number;
  desc : option string;
  tags : list string
}.

(** [menu_data["menu"]]: category name to the list of its items, in the
    order of the file. *)
Definition menu : Type := PyDict.dict (list MenuItem).

(** A value of [item_index]: [{"category": ..., "item": ...}]. *)
Record IndexEntry : Type := mkEntry {
  category : string;
  item : MenuItem
}.

Record OishiiMenuManager : Type := mkManager {
  menu_data : menu;
  categories : list string;
  item_index : PyDict.dict IndexEntry;
  popular_items : list MenuItem
}.

Definition popular_keywords : list string :=
  ["california"; "salmon"; "tuna"; "dragon"; "rainbow";
   "philadelphia"; "teriyaki"; "tempura"; "miso"].

(** The body of the inner loop of [_build_search_index] for one item. *)
Definition index_item (cat : string)
    (st : PyDict.dict IndexEntry * list MenuItem) (it : MenuItem)
    : PyDict.dict IndexEntry * list MenuItem :=
  let nm := lower (name it) in
  let idx := PyDict.set nm (mkEntry cat it) (fst st) in
  if existsb (fun keyword => str_in keyword nm) popular_keywords
  then (idx, snd st ++ [it])
  else (idx, snd st).

(** The body of the outer loop: all the items of one category. *)
Definition index_category
    (st : PyDict.dict IndexEntry * list MenuItem)
    (entry : string * list MenuItem)
    : PyDict.dict IndexEntry * list MenuItem :=
  fold_left (index_item (fst entry)) (snd entry) st.

(** [_build_search_index]: the pair [(item_index, popular_items)]. *)
Definition build_search_index (m : menu)
    : PyDict.dict IndexEntry * list MenuItem :=
  fold_left index_category m ([], []).

(** [OishiiMenuManager.__init__] on menu data that is already loaded. *)
Definition init (m : menu) : OishiiMenuManager :=
  let st := build_search_index m in
  mkManager m (map fst m) (fst st) (snd st).

(** [search_items]. *)
Definition search_items (self : OishiiMenuManager) (query : string)
    : list MenuItem :=
  let query := lower query in
  map (fun kv => item (snd kv))
    (filter
       (fun kv =>
          str_in query (fst kv) ||
          existsb (fun word => str_in query word) (split (fst kv)))
       (item_index self)).

(** [get_category_items]. *)
Definition get_category_items (self : OishiiMenuManager) (cat : string)
    : list MenuItem :=
  PyDict.get_default cat [] (menu_data self).

(** [get_item_by_name]: the exact entry of the index, else the first hit
    of [search_items], else [None]. *)
Definition get_item_by_name (self : OishiiMenuManager) (item_name : string)
    : option MenuItem :=
  match PyDict.get (lower item_name) (item_index self) with
  | Some exact_match => Some (item exact_match)
  | None => hd_error (search_items self item_name)
  end.

(** A dictionary passed to [calculate_total]: the two keys it reads, each
    of which may be absent. *)
Record PricedLine : Type := mkPriced {
  line_price : option number;
  line_quantity : option number
}.

Definition get_or (default : number) (v : option number) : number :=
  match v with
  | Some x => x
  | None => default
  end.

(** [sum(item.get("price", 0) * item.get("quantity", 1) for item in items)]:
    the products are added from left to right, starting from the [int] 0.
    (CPython 3.12 and later carry a compensation term through a run of
    [float] additions; the plain additions are the semantics of [sum] up to
    3.11 and the value of any sum of at most two [float] terms.) *)
Fixpoint sum_from (acc : number) (items : list PricedLine) : result number :=
  match items with
  | [] => Ok acc
  | it :: rest =>
      x <- num_mul (get_or (PyInt 0) (line_price it))
                   (get_or (PyInt 1) (line_quantity it)) ;;
      acc' <- num_add acc x ;;
      sum_from acc' rest
  end.

Definition subtotal_of (items : list PricedLine) : result number :=
  sum_from (PyInt 0) items.

(** The Ontario HST rate written in [calculate_total]. *)
Definition hst_rate : float := 0.13%float.

(** The local [tax] of [calculate_total]. *)
Definition tax_of (subtotal : number) : result number :=
  num_mul subtotal (PyFloat hst_rate).

(** [calculate_total]. *)
Definition calculate_total (items : list PricedLine) (include_tax : bool)
    : result number :=
  subtotal <- subtotal_of items ;;
  if include_tax then
    tax <- tax_of subtotal ;;
    total <- num_add subtotal tax ;;
    Ok (round2 total)
  else Ok (round2 subtotal).

End Menu.

(** ** The order processor ([OrderProcessor]) *)

Module Extract.
Import PyStr PyNum Menu.

(** A message of the conversation history: [msg["role"]], [msg["content"]]. *)
Record Msg : Type := mkMsg {
  role : string;
  content : string
}.

(** An element of the list [extract_items_from_conversation] returns. *)
Record OrderLine : Type := mkLine {
  ol_name : string;
  ol_price : number;
  ol_quantity : Z;
  ol_modifications : string
}.

Definition item_patterns : list (string * string) :=
  [("california roll", "California Roll");
   ("salmon roll", "Salmon Roll");
   ("tuna roll", "Tuna Roll");
   ("miso soup", "Miso Soup");
   ("edamame", "Edamame");
   ("chicken teriyaki", "Chicken Teriyaki");
   ("salmon sushi", "Salmon Sushi");
   ("tuna sushi", "Tuna Sushi")].

Definition qty_map : PyDict.dict Z :=
  [("one", 1%Z); ("two", 2%Z); ("three", 3%Z); ("four", 4%Z); ("five", 5%Z)].

(** The text built at the head of [extract_items_from_conversation]. *)
Definition full_conversation (conversation_history : list Msg) : string :=
  lower
    (join " "
       (map content
          (filter
             (fun msg =>
                String.eqb (role msg) "user" ||
                String.eqb (role msg) "assistant")
             conversation_history))).

(** The tail [\s+pattern] of the regular expression, read at [s]: one or
    more white-space characters and then the literal [pattern]. *)
Fixpoint spaces_then (pattern s : string) : bool :=
  match s with
  | EmptyString => false
  | String c s' =>
      is_space c && (String.prefix pattern s' || spaces_then pattern s')
  end.

(** The regular expression [(\w+)\s+pattern] matched at the head of [s];
    the result is group 1.  The group cannot stop short of the whole run of
    word characters: it must be followed by a white-space character. *)
Definition match_here (pattern s : string) : option string :=
  let (w, rest) := span is_word s in
  match w with
  | EmptyString => None
  | _ => if spaces_then pattern rest then Some w else None
  end.

(** [re.search(rf"(\w+)\s+{pattern}", s)] for a literal [pattern], with
    [group(1)] of the match: the first position of [s], from the left, at
    which the expression matches. *)
Fixpoint re_search_qty (pattern s : string) : option string :=
  match match_here pattern s with
  | Some w => Some w
  | None =>
      match s with
      | EmptyString => None
      | String _ s' => re_search_qty pattern s'
      end
  end.

(** The local [quantity] once the item is known to be on the menu. *)
Definition quantity_for (pattern text : string) : Z :=
  match re_search_qty pattern text with
  | Some qty_word => PyDict.get_default qty_word 1%Z qty_map
  | None => 1%Z
  end.

(** The body of the loop over [item_patterns]: the lines one pattern adds. *)
Definition lines_for (self : OishiiMenuManager) (text : string)
    (pat : string * string) : list OrderLine :=
  let (pattern, item_name) := pat in
  if str_in pattern text then
    match get_item_by_name self item_name with
    | Some menu_item =>
        [mkLine (name menu_item) (price menu_item)
                (quantity_for pattern text) ""]
    | None => []
    end
  else [].

(** [extract_items_from_conversation]. *)
Definition extract_items_from_conversation (self : OishiiMenuManager)
    (conversation_history : list Msg) : list OrderLine :=
  flat_map (lines_for self (full_conversation conversation_history))
           item_patterns.

End Extract.

(** ** The enhanced bot ([EnhancedOrderProcessor] and the disconnect handler) *)

Module Bot.
Import PyStr PyNum Menu Extract.

(** The dictionary [extract_customer_info] returns. *)
Record CustomerInfo : Type := mkCustomer {
  cust_name : string;
  cust_phone : string;
  cust_email : string
}.

(** The dictionary [create_order_data] returns and the webhook receives. *)
Record OrderData : Type := mkOrder {
  customer : CustomerInfo;
  items : list OrderLine;
  order_type : string;
  special_instructions : string;
  estimated_ready_time : string
}.

(** What the handler reports on its log once it has run. *)
Inductive Outcome : Type :=
| SentToKitchen      (* "Order successfully processed and sent to kitchen!" *)
| FailedToProcess    (* "Failed to process order" *)
| NoItemsFound       (* "No order items found in conversation" *)
| NotCompleted.      (* "Conversation ended without completing order" *)

Definition order_completion_indicators : list string :=
  ["process this order"; "order total"; "ready for pickup";
   "thank you for your order"; "being prepared"; "start preparing"].

(** Twenty minutes, in the microseconds [datetime] counts. *)
Definition ready_delay : Z := (20 * 60 * 1000000)%Z.

Section Processor.
(** [enhanced_order_processor.menu_manager], built once at import. *)
Variable menu_manager : OishiiMenuManager.
(** [extract_customer_info]: two regular-expression scans whose result
    only fills the [customer] field. *)
Variable extract_customer_info : list Msg -> CustomerInfo.
(** [datetime.isoformat], on a time in microseconds. *)
Variable isoformat : Z -> string.
(** The n8n webhook: the parsed body of a 200 answer, given the requests
    it has received before and the new one; [None] for any other status
    and for a failed request. *)
Variable Response : Type.
Variable webhook : list OrderData -> OrderData -> option Response.
(** Truth value of a parsed body, as [if result:] takes it. *)
Variable truthy : Response -> bool.

(** The local [conversation_text] of [create_order_data]. *)
Definition conversation_text (conversation_history : list Msg) : string :=
  lower (join " " (map content conversation_history)).

(** The local [order_type]. *)
Definition order_type_of (text : string) : string :=
  if str_in "dine in" text || str_in "dining in" text then "dine-in"
  else if str_in "delivery" text then "delivery"
  else "takeout".

(** The local [special_instructions]. *)
Definition special_instructions_of (text : string) : string :=
  if str_in "extra" text || str_in "no " text || str_in "without" text
  then "See conversation for special requests"
  else "".

(** [create_order_data], with the clock read passed as [now]. *)
Definition create_order_data (conversation_history : list Msg) (now : Z)
    : OrderData :=
  let items :=
    extract_items_from_conversation menu_manager conversation_history in
  let customer_info := extract_customer_info conversation_history in
  let text := conversation_text conversation_history in
  mkOrder customer_info items (order_type_of text)
          (special_instructions_of text)
          (isoformat (now + ready_delay)%Z).

(** [send_order_to_n8n]: one POST to the webhook.  [posts] is the list of
    the bodies posted so far, oldest first. *)
Definition send_order_to_n8n (order_data : OrderData)
    (posts : list OrderData) : option Response * list OrderData :=
  (webhook posts order_data, posts ++ [order_data]).

(** [on_client_disconnected] for a session whose message list is
    [messages], run at time [now].  The final [task.cancel()] belongs to
    the audio pipeline and is not part of the state. *)
Definition on_client_disconnected (messages : list Msg) (now : Z)
    (posts : list OrderData) : Outcome * list OrderData :=
  let conversation := messages in
  let conversation_text := join " " (map content conversation) in
  if existsb (fun phrase => str_in phrase (lower conversation_text))
             order_completion_indicators
  then
    let order_data := create_order_data conversation now in
    match items order_data with
    | _ :: _ =>
        let (result, posts') := send_order_to_n8n order_data posts in
        match result with
        | Some r =>
            if truthy r then (SentToKitchen, posts')
            else (FailedToProcess, posts')
        | None => (FailedToProcess, posts')
        end
    | [] => (NoItemsFound, posts)
    end
  else (NotCompleted, posts).

(** The handler fired once for each clock reading of [times], in order,
    on the same session. *)
Fixpoint disconnects (messages : list Msg) (times : list Z)
    (posts : list OrderData) : list OrderData :=
  match times with
  | [] => posts
  | now :: later =>
      disconnects messages later
        (snd (on_client_disconnected messages now posts))
  end.
End Processor.

End Bot.

(** ** Vocabulary of the statements *)

Module Reading.
Import PyStr PyNum Menu Extract.

(** The items in the order in which the two loops of
    [_build_search_index] visit them: category by category. *)
Definition all_items (m : menu) : list MenuItem :=
  flat_map (fun entry => snd entry) m.

(** The same walk, each item with the category it is visited under. *)
Definition all_entries (m : menu) : list IndexEntry :=
  flat_map (fun entry => map (mkEntry (fst entry)) (snd entry)) m.

(** The key [_build_search_index] files an item under. *)
Definition key_of (e : IndexEntry) : string := lower (name (item e)).

(** The assignment [self.item_index[name] = {...}] for one visited item. *)
Definition put (idx : PyDict.dict IndexEntry) (e : IndexEntry)
    : PyDict.dict IndexEntry :=
  PyDict.set (key_of e) e idx.

(** The last item of a walk whose lowercased name is [key]. *)
Definition last_named (key : string) (walk : list MenuItem)
    : option MenuItem :=
  find (fun it => String.eqb (lower (name it)) key) (rev walk).

(** [text] reads [pre], then the word [w], then white space, then
    [pattern]: a place where the quantity expression can match, with [w] as
    its group. *)
Definition qty_site (pattern text pre w : string) : Prop :=
  exists ws post,
    text = (pre ++ w ++ ws ++ pattern ++ post)%string /\
    w <> EmptyString /\ all_chars is_word w = true /\
    ws <> EmptyString /\ all_chars is_space ws = true.

(** A line as the order processor builds it: a [float] price and an [int]
    quantity that a [float] can hold.  Nothing is asked of their signs. *)
Definition float_priced (l : PricedLine) : Prop :=
  exists p q fq,
    line_price l = Some (PyFloat p) /\
    line_quantity l = Some (PyInt q) /\
    float_of_int q = Ok fq.

(** *** Quantity resolution as the specification words it

    "Scan the text for a literal substring match; on a match, inspect the
    single word immediately preceding the matched phrase." *)

(** The text before the first occurrence of [phrase] in [text]. *)
Fixpoint before_first (phrase text : string) : option string :=
  if String.prefix phrase text then Some EmptyString
  else
    match text with
    | EmptyString => None
    | String c text' =>
        match before_first phrase text' with
        | Some pre => Some (String c pre)
        | None => None
        end
    end.

Fixpoint rev_string (s : string) : string :=
  match s with
  | EmptyString => EmptyString
  | String c s' => (rev_string s' ++ String c EmptyString)%string
  end.

(** The word that ends [before], white space apart: the last run of word
    characters, when white space and nothing else separates it from the
    end. *)
Definition preceding_word (before : string) : option string :=
  let (ws, rest) := span is_space (rev_string before) in
  match ws with
  | EmptyString => None
  | _ =>
      let (w, _) := span is_word rest in
      match w with
      | EmptyString => None
      | _ => Some (rev_string w)
      end
  end.

(** [phrase] occurs in [text], at one place only. *)
Definition occurs_once (phrase text : string) : Prop :=
  exists a b,
    text = (a ++ phrase ++ b)%string /\
    forall a' b', text = (a' ++ phrase ++ b')%string -> a' = a.

(** The quantity the specification's wording gives for [phrase] in [text]. *)
Definition spec_quantity (phrase text : string) : Z :=
  match before_first phrase text with
  | Some before =>
      match preceding_word before with
      | Some w => PyDict.get_default w 1%Z qty_map
      | None => 1%Z
      end
  | None => 1%Z
  end.

End Reading.

(** ** Sample data *)

Module Samples.
Import PyStr PyNum Menu Extract Bot.

Definition california_roll : MenuItem :=
  mkItem "California Roll" (PyFloat 7.28%float) None [].
Definition salmon_roll : MenuItem :=
  mkItem "Salmon Roll" (PyFloat 7.28%float) None [].
Definition salmon_sushi : MenuItem :=
  mkItem "Salmon Sushi" (PyFloat 3.98%float) None [].
Definition dragon_roll : MenuItem :=
  mkItem "Dragon Roll" (PyFloat 14.98%float) (Some "eel and avocado") [].

(** A menu with prices of the system prompt. *)
Definition sample_menu : menu :=
  [("Maki Rolls", [california_roll; salmon_roll]);
   ("Sushi", [salmon_sushi]);
   ("Special Rolls", [dragon_roll])].

Definition salmon_as_sushi : MenuItem :=
  mkItem "Salmon" (PyFloat 3.98%float) None [].
Definition salmon_as_sashimi : MenuItem :=
  mkItem "Salmon" (PyFloat 4.28%float) None [].

(** A menu that lists one name in two categories, at two prices. *)
Definition two_salmon_menu : menu :=
  [("Sushi", [salmon_as_sushi]); ("Sashimi", [salmon_as_sashimi])].

(** The two lines of the pricing example. *)
Definition example_lines : list PricedLine :=
  [mkPriced (Some (PyFloat 7.28%float)) (Some (PyInt 2));
   mkPriced (Some (PyFloat 3.98%float)) (Some (PyInt 1))].


(** A call that ends with a confirmed order of two California rolls. *)
Definition completed_call : list Msg :=
  [mkMsg "system" "You are Hana, the assistant of the restaurant.";
   mkMsg "user" "I would like two California Roll please";
   mkMsg "assistant" "Thank you! Your order is being prepared."].

(** A confirmed call in which no dish of the pattern table is named. *)
Definition empty_order_call : list Msg :=
  [mkMsg "user" "One dragon roll please";
   mkMsg "assistant" "Thank you for your order."].

(** A call in which the dish is named first without a number and then
    repeated with one. *)
Definition restated_call : list Msg :=
  [mkMsg "user" "California roll please";
   mkMsg "assistant" "So that is two California roll"].

Definition no_customer (conversation_history : list Msg) : CustomerInfo :=
  mkCustomer "" "" "".

Definition no_isoformat (t : Z) : string := "".

(** A webhook that answers every request with status 200 and a true body. *)
Definition accepting_webhook (received : list OrderData) (order : OrderData)
    : option bool :=
  Some true.

Definition bool_truthy (b : bool) : bool := b.

End Samples.

(** ** The menu manager: the remaining queries *)

Module MenuMore.
Import PyStr PyNum Menu.

(** The test ["vegetarian" in item.get("tags", [])]. *)
Definition is_vegetarian (it : MenuItem) : bool :=
  existsb (String.eqb "vegetarian") (tags it).

(** [get_vegetarian_items]: the two loops append to [vegetarian_items]. *)
Definition get_vegetarian_items (self : OishiiMenuManager) : list MenuItem :=
  fold_left
    (fun vegetarian_items entry =>
       fold_left
         (fun vegetarian_items it =>
            if is_vegetarian it then vegetarian_items ++ [it]
            else vegetarian_items)
         (snd entry) vegetarian_items)
    (menu_data self) [].

(** The slice [l[:stop]] for an [int] [stop]: a negative [stop] counts from
    the end of the list. *)
Definition slice_to {A : Type} (stop : Z) (l : list A) : list A :=
  if (0 <=? stop)%Z then firstn (Z.to_nat stop) l
  else firstn (List.length l - Z.to_nat (- stop)) l.

(** [get_popular_recommendations]. *)
Definition get_popular_recommendations (self : OishiiMenuManager)
    (limit : Z) : list MenuItem :=
  slice_to limit (popular_items self).

(** The keyword test of [_build_search_index] on an item. *)
Definition is_popular (it : MenuItem) : bool :=
  existsb (fun keyword => str_in keyword (lower (name it))) popular_keywords.

End MenuMore.

(** ** Vocabulary for the order lines *)

Module ExtractMore.
Import PyStr PyNum Menu Extract.

(** The role test of [extract_items_from_conversation]. *)
Definition is_spoken (msg : Msg) : bool :=
  String.eqb (role msg) "user" || String.eqb (role msg) "assistant".

(** A message with its content in lower case. *)
Definition lower_msg (msg : Msg) : Msg :=
  mkMsg (role msg) (lower (content msg)).

(** An extracted line as [calculate_total] reads it: the keys "price" and
    "quantity" of the dictionary. *)
Definition priced_of_line (l : OrderLine) : PricedLine :=
  mkPriced (Some (ol_price l)) (Some (PyInt (ol_quantity l))).

(** A dictionary whose "price" and "quantity", where present, are [int]s. *)
Definition int_line (l : PricedLine) : Prop :=
  (line_price l = None \/ exists p, line_price l = Some (PyInt p)) /\
  (line_quantity l = None \/ exists q, line_quantity l = Some (PyInt q)).

(** The value [calculate_total] reads from an [int] or absent entry. *)
Definition int_or (default : Z) (v : option number) : Z :=
  match v with
  | Some (PyInt z) => z
  | _ => default
  end.

(** Price times quantity of a dictionary of [int]s, with the defaults 0
    and 1 of [calculate_total]. *)
Definition int_value (l : PricedLine) : Z :=
  (int_or 0 (line_price l) * int_or 1 (line_quantity l))%Z.

End ExtractMore.

(** ** Customer details ([extract_customer_info]) *)

Module Customer.
Import PyStr Extract Bot.

(** The class [\d] on ASCII.  The decimal digits of other scripts are not
    embedded. *)
Definition is_digit (c : ascii) : bool :=
  let n := nat_of_ascii c in (48 <=? n)%nat && (n <=? 57)%nat.

(** The class [[-.]]. *)
Definition is_phone_sep (c : ascii) : bool :=
  Ascii.eqb c "-"%char || Ascii.eqb c "."%char.

(** [\d{n}] at the head of [s]: the digits and the rest. *)
Fixpoint take_digits (n : nat) (s : string) : option (string * string) :=
  match n with
  | O => Some (EmptyString, s)
  | S n' =>
      match s with
      | String c s' =>
          if is_digit c then
            match take_digits n' s' with
            | Some (d, rest) => Some (String c d, rest)
            | None => None
            end
          else None
      | EmptyString => None
      end
  end.

(** [[-.]?] at the head of [s].  A separator that is there is taken: left
    out, the digits that must follow would have to start with it. *)
Definition take_sep (s : string) : string * string :=
  match s with
  | String c s' =>
      if is_phone_sep c then (String c EmptyString, s') else (EmptyString, s)
  | EmptyString => (EmptyString, EmptyString)
  end.

(** [\b] after a digit: the text ends or goes on with a character that is
    not a word character. *)
Definition at_word_end (s : string) : bool :=
  match s with
  | EmptyString => true
  | String c _ => negb (is_word c)
  end.

(** [(\d{3}[-.]?\d{3}[-.]?\d{4})\b] at the head of [s]: group 1. *)
Definition phone_here (s : string) : option string :=
  match take_digits 3 s with
  | Some (a, r1) =>
      let (sep1, r2) := take_sep r1 in
      match take_digits 3 r2 with
      | Some (b, r3) =>
          let (sep2, r4) := take_sep r3 in
          match take_digits 4 r4 with
          | Some (c, r5) =>
              if at_word_end r5
              then Some (a ++ sep1 ++ b ++ sep2 ++ c)%string
              else None
          | None => None
          end
      | None => None
      end
  | None => None
  end.

(** [re.search(phone_pattern, s)] with its group 1, for the text that
    follows a character which is a word character or not as
    [after_word] says: the leading [\b] lets a match start only where the
    character before is not a word character. *)
Fixpoint phone_search (after_word : bool) (s : string) : option string :=
  match (if after_word then None else phone_here s) with
  | Some phone => Some phone
  | None =>
      match s with
      | EmptyString => None
      | String c s' => phone_search (is_word c) s'
      end
  end.

(** A literal of the pattern at the head of [s] under [re.IGNORECASE]:
    the rest of [s] after it. *)
Fixpoint prefix_ci (literal s : string) : option string :=
  match literal with
  | EmptyString => Some s
  | String a literal' =>
      match s with
      | String c s' =>
          if Ascii.eqb (lower_char a) (lower_char c)
          then prefix_ci literal' s'
          else None
      | EmptyString => None
      end
  end.

(** The group [(\w+(?:\s+\w+)?)] at the head of [s]: a word, and with it
    the white space and the word that follow when there are both. *)
Definition name_group (s : string) : option string :=
  let (w1, r1) := span is_word s in
  match w1 with
  | EmptyString => None
  | _ =>
      let (ws, r2) := span is_space r1 in
      let (w2, _) := span is_word r2 in
      match ws, w2 with
      | String _ _, String _ _ => Some (w1 ++ ws ++ w2)%string
      | _, _ => Some w1
      end
  end.

(** The class [[''s]] under [re.IGNORECASE]. *)
Definition is_possessive (c : ascii) : bool :=
  Ascii.eqb c "'"%char || Ascii.eqb (lower_char c) "s"%char.

(** The three name patterns at the head of [s]. *)
Definition my_name_is_here (s : string) : option string :=
  match prefix_ci "my name is " s with
  | Some rest => name_group rest
  | None => None
  end.

Definition this_is_here (s : string) : option string :=
  match prefix_ci "this is " s with
  | Some rest => name_group rest
  | None => None
  end.

Definition name_s_here (s : string) : option string :=
  match prefix_ci "name" s with
  | Some rest =>
      let (_, r1) := span is_possessive rest in
      let (ws, r2) := span is_space r1 in
      match ws with
      | EmptyString => None
      | _ => name_group r2
      end
  | None => None
  end.

(** [re.search] for a pattern given by its match at the head of a text:
    the match at the first position, from the left, that has one. *)
Fixpoint search_first (here : string -> option string) (s : string)
    : option string :=
  match here s with
  | Some found => Some found
  | None =>
      match s with
      | EmptyString => None
      | String _ s' => search_first here s'
      end
  end.

Definition name_patterns : list (string -> option string) :=
  [my_name_is_here; this_is_here; name_s_here].

Definition is_lower_letter (c : ascii) : bool :=
  let n := nat_of_ascii c in (97 <=? n)%nat && (n <=? 122)%nat.

Definition is_upper_letter (c : ascii) : bool :=
  let n := nat_of_ascii c in (65 <=? n)%nat && (n <=? 90)%nat.

Definition upper_char (c : ascii) : ascii :=
  if is_lower_letter c then ascii_of_nat (nat_of_ascii c - 32) else c.

(** [s.title()] on ASCII text: a letter that follows a letter is put in
    lower case, any other letter in upper case.  The cased letters beyond
    ASCII are not embedded. *)
Fixpoint title_from (after_letter : bool) (s : string) : string :=
  match s with
  | EmptyString => EmptyString
  | String c s' =>
      if is_lower_letter c then
        String (if after_letter then c else upper_char c) (title_from true s')
      else if is_upper_letter c then
        String (if after_letter then lower_char c else c) (title_from true s')
      else String c (title_from false s')
  end.

Definition title (s : string) : string := title_from false s.

(** The loop over [name_patterns]: the first pattern that matches
    somewhere in the text gives the name. *)
Fixpoint first_name_match (patterns : list (string -> option string))
    (text : string) : string :=
  match patterns with
  | [] => EmptyString
  | here :: later =>
      match search_first here text with
      | Some found => title found
      | None => first_name_match later text
      end
  end.

(** [extract_customer_info]. *)
Definition extract_customer_info (conversation_history : list Msg)
    : CustomerInfo :=
  let conversation_text := join " " (map content conversation_history) in
  let phone :=
    match phone_search false conversation_text with
    | Some found => found
    | None => EmptyString
    end in
  mkCustomer (first_name_match name_patterns conversation_text) phone
             EmptyString.

End Customer.

(** ** Vocabulary for the customer details *)

Module CustomerReading.
Import PyStr Extract Bot Customer.

(** [n] digits. *)
Definition digits (n : nat) (s : string) : Prop :=
  String.length s = n /\ all_chars is_digit s = true.

(** Nothing, a hyphen or a dot. *)
Definition optional_sep (s : string) : Prop :=
  s = EmptyString \/ s = "-" \/ s = ".".

(** Three digits, three digits and four digits, with or without a
    separator after each of the first two groups. *)
Definition phone_shape (p : string) : Prop :=
  exists a s1 b s2 c,
    p = (a ++ s1 ++ b ++ s2 ++ c)%string /\
    digits 3 a /\ optional_sep s1 /\ digits 3 b /\ optional_sep s2 /\
    digits 4 c.

(** Whether the text [pre], read after a character that is a word
    character or not as [after_word] says, ends with a word character. *)
Fixpoint ends_in_word (after_word : bool) (pre : string) : bool :=
  match pre with
  | EmptyString => after_word
  | String c pre' => ends_in_word (is_word c) pre'
  end.

(** [text] reads [pre], then the number [p], then [post], and no word
    character touches the number on either side. *)
Definition phone_site (after_word : bool) (text pre p : string) : Prop :=
  exists post,
    text = (pre ++ p ++ post)%string /\
    phone_shape p /\
    ends_in_word after_word pre = false /\
    at_word_end post = true.

(** One word, or two words with white space between them. *)
Definition one_or_two_words (s : string) : Prop :=
  (s <> EmptyString /\ all_chars is_word s = true) \/
  exists w1 ws w2,
    s = (w1 ++ ws ++ w2)%string /\
    w1 <> EmptyString /\ all_chars is_word w1 = true /\
    ws <> EmptyString /\ all_chars is_space ws = true /\
    w2 <> EmptyString /\ all_chars is_word w2 = true.

End CustomerReading.

(** ** The system prompt ([get_menu_summary_for_ai],
    [get_enhanced_restaurant_prompt]) *)

Module Prompt.
Import PyStr Menu Extract.
Local Open Scope string_scope.

(** The double quote. *)
Definition dquote : string := String "034"%char EmptyString.

(** The line feed. *)
Definition newline : string := String "010"%char EmptyString.

(** [str(n)] for a length. *)
Definition str_of_nat (n : nat) : string :=
  NilEmpty.string_of_uint (Nat.to_uint n).

(** The text of the summary up to the number of categories. *)
Definition summary_opening : string :=
  "
OISHII SUSHI WINDSOR MENU KNOWLEDGE:

RESTAURANT INFO:
- Location: 7485 Tecumseh Rd E, Windsor, ON
- Phone: 519-988-1688
- Hours: Mon-Thu 11AM-10PM, Fri-Sat 11AM-10:30PM, Sun 11:30AM-10PM

ALL-YOU-CAN-EAT PRICING:
Weekday Lunch (until 3PM): Adult $27.99, Senior $25.99, Child 7-12 $18.99, Child 3-6 $12.99
Weekend Lunch: Adult $28.99, Senior $26.99, Child 7-12 $19.99, Child 3-6 $13.99
Weekday Dinner: Adult $37.99, Senior $35.99, Child 7-12 $23.99, Child 3-6 $16.99
Weekend Dinner: Adult $39.99, Senior $37.99, Child 7-12 $25.99, Child 3-6 $17.99

MENU CATEGORIES (".

(** The text between the number of categories and their names. *)
Definition summary_total : string :=
  " total):
".

(** The text after the names of the categories. *)
Definition summary_popular_heading : string :=
  "

POPULAR ITEMS TO RECOMMEND:
".

(** The text the summary ends with. *)
Definition summary_closing : string :=
  "

DIETARY OPTIONS:
- Vegetarian items available (marked with vegetarian tag)
- Fresh sashimi and sushi options
- Cooked options like teriyaki and tempura
- Vegetable rolls and tempura

PRICING NOTES:
- All prices exclude 13% HST tax
- Most rolls: $7-15
- Sushi/Sashimi: $3-5 per piece  
- Appetizers: $8-12
- Entrees: $16-24

ORDERING TIPS:
- Ask about dietary restrictions and allergies
- Suggest All-You-Can-Eat for dine-in if multiple items wanted
- Popular combinations: Miso soup + California roll + Salmon sushi
- Always confirm quantities and modifications
- Calculate tax (13% HST) in final total
".

(** The text of the prompt before the summary. *)
Definition prompt_opening : string :=
  "
You are Hana, the friendly AI assistant for Oishii Sushi in Windsor, Ontario. You are an expert on Japanese cuisine and our complete menu.

".

(** The text of the prompt after the summary. *)
Definition prompt_closing : string :=
  ("

PERSONALITY & APPROACH:
- Warm, professional, and knowledgeable about Japanese cuisine
- Patient and helpful with menu questions
- Make thoughtful recommendations based on customer preferences
- Speak naturally and conversationally

CONVERSATION FLOW:
1. GREETING: " ++ dquote ++ "Hello! Thank you for calling Oishii Sushi in Windsor. This is Hana. Are you looking for dine-in, takeout, or delivery today?" ++ dquote ++ "

2. ORDER TYPE: Determine dine-in/takeout/delivery and suggest AYCE if appropriate for dine-in

3. MENU ASSISTANCE: 
   - Ask about preferences (raw vs cooked, spicy vs mild, vegetarian needs)
   - Make recommendations from popular items
   - Explain dishes when asked
   - Suggest combinations and add-ons

4. ORDER TAKING:
   - Confirm each item and quantity
   - Ask about modifications/special requests
   - Keep running total and inform customer

5. CUSTOMER DETAILS:
   - Get full name and phone number
   - Confirm order type and any special instructions

6. FINAL CONFIRMATION:
   - Repeat complete order with prices
   - Calculate total with 13% HST tax
   - Provide estimated ready time (15-20 minutes for takeout)
   - Thank customer warmly

MENU EXPERTISE:
- Know exact prices for all items
- Suggest appropriate portions (1-2 rolls per person typically)
- Recommend complementary items (soup with meals, etc.)
- Handle dietary restrictions with vegetarian options
- Explain Japanese terms when needed

PRICING CALCULATION:
- Always calculate 13% HST tax on final total
- Round to nearest cent
- Be transparent about pricing

IMPORTANT RULES:
- Always confirm orders before processing
- Ask about allergies and dietary restrictions  
- Get accurate customer contact information
- When order is complete, say " ++ dquote ++ "Let me process this order for you" ++ dquote ++ " then provide final summary
- End with: " ++ dquote ++ "Thank you! Your order is being prepared. Total is $X.XX including tax, ready in X minutes." ++ dquote ++ "

SAMPLE RECOMMENDATIONS:
- First-time customers: California Roll + Miso Soup + Salmon Sushi
- Vegetarian: Vegetable Roll + Tempura Vegetables + Edamame
- Cooked options: Chicken Teriyaki + California Roll
- Sashimi lovers: Assorted Sashimi + Miso Soup
- Large appetite: Suggest All-You-Can-Eat for dine-in
").

(** The dictionary [popular_by_category]. *)
Definition popular_by_category : PyDict.dict (list string) :=
  [("Appetizers",
    ["Dumpling (6 pcs) $8.38"; "Edamame $8.38"; "Tempura Shrimp (5 pcs) $11.98"]);
   ("Sushi",
    ["Salmon Sushi $3.98"; "Tuna Sushi $3.98"; "Eel Sushi $4.28"]);
   ("Sashimi",
    ["Salmon Sashimi $3.98"; "Tuna Sashimi $3.98"; "Yellowtail Sashimi $4.28"]);
   ("Maki Rolls",
    ["California Roll $7.28"; "Salmon Roll $7.28"; "Tuna Roll $7.98"]);
   ("Special Rolls",
    ["Dragon Roll $14.98"; "Rainbow Roll $13.98"; "Philadelphia Roll $12.98"]);
   ("Teriyaki",
    ["Chicken Teriyaki $16.98"; "Beef Teriyaki $21.98"; "Salmon Teriyaki $19.98"])].

(** The body of the loop over [popular_by_category]. *)
Definition add_popular (summary : string) (entry : string * list string)
    : string :=
  summary ++ (newline ++ fst entry ++ ": " ++ join ", " (snd entry)).

(** [get_menu_summary_for_ai]. *)
Definition get_menu_summary_for_ai (self : OishiiMenuManager) : string :=
  let summary :=
    summary_opening ++ str_of_nat (List.length (categories self)) ++
    summary_total ++ join ", " (categories self) ++
    summary_popular_heading in
  let summary := fold_left add_popular popular_by_category summary in
  summary ++ summary_closing.

(** [get_enhanced_restaurant_prompt]. *)
Definition get_enhanced_restaurant_prompt (menu_manager : OishiiMenuManager)
    : string :=
  let menu_summary := get_menu_summary_for_ai menu_manager in
  prompt_opening ++ menu_summary ++ prompt_closing.

(** The list [messages] that [run_enhanced_restaurant_bot] starts a
    session with: the system message alone. *)
Definition messages (menu_manager : OishiiMenuManager) : list Msg :=
  [mkMsg "system" (get_enhanced_restaurant_prompt menu_manager)].

End Prompt.

(** ** Vocabulary for the session *)

Module SessionReading.

(** The character [c] occurs in [s]. *)
Fixpoint has_char (c : ascii) (s : string) : bool :=
  match s with
  | EmptyString => false
  | String d s' => Ascii.eqb c d || has_char c s'
  end.

(** [s] without its last character. *)
Fixpoint drop_last (s : string) : string :=
  match s with
  | EmptyString => EmptyString
  | String c EmptyString => EmptyString
  | String c s' => String c (drop_last s')
  end.

(** [s] without its first character. *)
Definition behead (s : string) : string :=
  match s with
  | EmptyString => EmptyString
  | String _ s' => s'
  end.

(** The messages of the caller and of the assistant, as the order
    processor selects them: what was said in the call. *)
Definition said_in (messages : list Extract.Msg) : list Extract.Msg :=
  filter
    (fun msg =>
       String.eqb (Extract.role msg) "user" ||
       String.eqb (Extract.role msg) "assistant")
    messages.

End SessionReading.

(** ** Sample sessions of the enhanced bot

    The list [messages] of a session: the system message that
    [run_enhanced_restaurant_bot] puts first, and after it what the
    caller and the assistant say. *)

Module SessionSamples.
Import PyStr PyNum Menu Extract Bot Samples.

(** The caller names a dish and hangs up before anything is confirmed. *)
Definition hung_up_session : list Msg :=
  Prompt.messages (init sample_menu) ++
  [mkMsg "user" "I would like two California Roll please";
   mkMsg "assistant" "Sure, two California Roll. Anything else?"].

(** The call is confirmed, and no dish of the pattern table is named. *)
Definition no_item_session : list Msg :=
  Prompt.messages (init sample_menu) ++
  [mkMsg "user" "One dragon roll please";
   mkMsg "assistant" "Thank you for your order."].

(** The caller asks for takeout; nobody speaks of any other way. *)
Definition takeout_session : list Msg :=
  Prompt.messages (init sample_menu) ++
  [mkMsg "user" "One California Roll for takeout please";
   mkMsg "assistant" "One California Roll to pick up, certainly."].

(** The caller speaks of a delivery first and settles on eating in. *)
Definition dining_in_session : list Msg :=
  Prompt.messages (init sample_menu) ++
  [mkMsg "user" "We were thinking of delivery";
   mkMsg "user" "Actually we will be Dining In tonight"].

End SessionSamples.

(** ** Loading the menu ([_load_menu], [initialize_menu_manager],
    [get_menu_manager]) *)

Module Loader.
Import Menu.

(** What opening a path and parsing it as a menu gives: the menu, the
    exception [FileNotFoundError] of [open], or any other exception. *)
Inductive read_outcome : Type :=
| Parsed (m : menu)
| FileNotFound
| OtherFailure.

(** What a loading function gives: its value, or the exception it lets
    through. *)
Inductive loaded (A : Type) : Type :=
| Loaded (a : A)
| NotFoundRaised
| OtherRaised.

Arguments Loaded {A} a.
Arguments NotFoundRaised {A}.
Arguments OtherRaised {A}.

Definition default_menu_file : string := "docs/oishii_windsor_full_menu.json".

(** [_load_menu]: the fallback path is tried after [FileNotFoundError] and
    after nothing else. *)
Definition load_menu (fs : string -> read_outcome) (file_path : string)
    : read_outcome :=
  match fs file_path with
  | FileNotFound => fs ("../" ++ file_path)%string
  | outcome => outcome
  end.

(** [OishiiMenuManager(menu_file_path)]. *)
Definition new_manager (fs : string -> read_outcome) (menu_file_path : string)
    : loaded OishiiMenuManager :=
  match load_menu fs menu_file_path with
  | Parsed m => Loaded (init m)
  | FileNotFound => NotFoundRaised
  | OtherFailure => OtherRaised
  end.

(** [initialize_menu_manager]: the result and the new value of the global
    [menu_manager], which an exception leaves as it was. *)
Definition initialize_menu_manager (fs : string -> read_outcome)
    (menu_file_path : string) (menu_manager : option OishiiMenuManager)
    : loaded OishiiMenuManager * option OishiiMenuManager :=
  match new_manager fs menu_file_path with
  | Loaded m => (Loaded m, Some m)
  | NotFoundRaised => (NotFoundRaised, menu_manager)
  | OtherRaised => (OtherRaised, menu_manager)
  end.

(** [get_menu_manager]. *)
Definition get_menu_manager (fs : string -> read_outcome)
    (menu_manager : option OishiiMenuManager)
    : loaded OishiiMenuManager * option OishiiMenuManager :=
  match menu_manager with
  | None => initialize_menu_manager fs default_menu_file menu_manager
  | Some m => (Loaded m, menu_manager)
  end.

End Loader.

(** ** The basic bot ([restaurant_bot.py]) *)

Module BasicBot.
Import PyStr PyNum Extract Bot Prompt.
Local Open Scope string_scope.

(** [RESTAURANT_SYSTEM_PROMPT]. *)
Definition RESTAURANT_SYSTEM_PROMPT : string :=
  ("
You are Hana, a friendly AI assistant for Oishii Sushi in Windsor, Ontario. Your job is to take phone orders efficiently and accurately.

PERSONALITY:
- Warm, professional, and helpful
- Knowledgeable about Japanese cuisine  
- Patient with customers who need time to decide
- Speak naturally and conversationally

ORDER PROCESS:
1. Greet the customer warmly and introduce yourself
2. Ask if they want dine-in, takeout, or delivery
3. Take their order (ask about quantities, modifications, dietary restrictions)
4. Suggest popular items or chef recommendations if they seem unsure
5. Confirm each item and quantity as you go
6. Calculate and confirm the total (including 13% HST tax)
7. Get customer details (full name, phone number)
8. Provide estimated ready time (usually 15-20 minutes for takeout)
9. End with order confirmation and polite goodbye

MENU HIGHLIGHTS (mention these when appropriate):
- Signature Rolls: Dragon Roll, Rainbow Roll, Philadelphia Roll
- Fresh Sashimi: Salmon, Tuna, Yellowtail
- Popular Appetizers: Gyoza, Edamame, Miso Soup
- Cooked Options: Chicken Teriyaki, Beef Bulgogi, Tempura
- All-You-Can-Eat available for dine-in ($37.99 weekdays, $42.99 weekends)
- Vegetarian options available

PRICING NOTES:
- Most rolls: $8-16
- Sashimi: $3-5 per piece
- Appetizers: $6-12
- Entrees: $16-24
- Add 13% HST to all orders

IMPORTANT RULES:
- Always confirm orders before processing
- Be clear about pricing and tax
- Ask about allergies and dietary restrictions
- Get accurate customer contact information
- If order is complex, repeat it back to customer
- When order is complete, say " ++ dquote ++ "Let me process this order for you" ++ dquote ++ " and then provide a summary

WHEN ORDER IS COMPLETE:
End the conversation by saying: " ++ dquote ++ "Thank you! Your order has been processed and our kitchen will start preparing it right away. Your order total is $X.XX including tax. It will be ready for pickup in approximately X minutes. Have a great day!" ++ dquote ++ "
").

(** The completion phrases of the basic handler. *)
Definition completion_phrases : list string :=
  ["process this order"; "order total"; "ready for pickup";
   "thank you for your order"].

Section Processor.
(** [datetime.isoformat], on a time in microseconds. *)
Variable isoformat : Z -> string.
(** The n8n webhook, as for the enhanced bot. *)
Variable Response : Type.
Variable webhook : list OrderData -> OrderData -> option Response.
Variable truthy : Response -> bool.

(** [RestaurantOrderProcessor.parse_order_from_conversation], with the
    clock read passed as [now]. *)
Definition parse_order_from_conversation (conversation_history : list Msg)
    (now : Z) : OrderData :=
  let customer_info := mkCustomer "" "" "" in
  let conversation_text :=
    join " "
      (map content
         (filter
            (fun msg =>
               String.eqb (role msg) "user" ||
               String.eqb (role msg) "assistant")
            conversation_history)) in
  let order_items :=
    if str_in "california roll" (lower conversation_text)
    then [mkLine "California Roll" (PyFloat 12.99%float) 1 ""]
    else [] in
  mkOrder customer_info order_items "takeout" ""
          (isoformat (now + ready_delay)%Z).

(** [on_client_disconnected] of [run_restaurant_bot]. *)
Definition on_client_disconnected (messages : list Msg) (now : Z)
    (posts : list OrderData) : Outcome * list OrderData :=
  let conversation := messages in
  let conversation_text := join " " (map content conversation) in
  if existsb (fun phrase => str_in phrase (lower conversation_text))
             completion_phrases
  then
    let order_data := parse_order_from_conversation conversation now in
    match items order_data with
    | _ :: _ =>
        match webhook posts order_data with
        | Some r =>
            if truthy r then (SentToKitchen, (posts ++ [order_data])%list)
            else (FailedToProcess, (posts ++ [order_data])%list)
        | None => (FailedToProcess, (posts ++ [order_data])%list)
        end
    | [] => (NoItemsFound, posts)
    end
  else (NotCompleted, posts).
End Processor.

(** The list [messages] that [run_restaurant_bot] starts a session with. *)
Definition messages : list Msg := [mkMsg "system" RESTAURANT_SYSTEM_PROMPT].

End BasicBot.

(** * Properties *)

(** ** Facts about strings *)

Module PyStrFacts.
Import PyStr.
Local Open Scope string_scope.

Lemma lower_char_idem (c : ascii) : lower_char (lower_char c) = lower_char c.
Proof.
  destruct c as [[] [] [] [] [] [] [] []]; reflexivity.
Qed.

Lemma lower_idem (s : string) : lower (lower s) = lower s.
Proof.
  induction s as [|c s IH]; simpl; [reflexivity|].
  now rewrite lower_char_idem, IH.
Qed.

Lemma lower_app (a b : string) : lower (a ++ b) = lower a ++ lower b.
Proof.
  induction a as [|c a IH]; simpl; [reflexivity|now rewrite IH].
Qed.

Lemma app_empty_r (s : string) : s ++ "" = s.
Proof.
  induction s as [|c s IH]; simpl; [reflexivity|now rewrite IH].
Qed.

Lemma app_assoc (a b c : string) : (a ++ b) ++ c = a ++ (b ++ c).
Proof.
  induction a as [|x a IH]; simpl; [reflexivity|now rewrite IH].
Qed.

Lemma length_app (a b : string) :
  String.length (a ++ b) = String.length a + String.length b.
Proof.
  induction a as [|x a IH]; simpl; [reflexivity|now rewrite IH].
Qed.

Lemma prefix_empty (s : string) : String.prefix "" s = true.
Proof. destruct s; reflexivity. Qed.

Lemma prefix_app (p t : string) : String.prefix p (p ++ t) = true.
Proof.
  induction p as [|c p IH]; simpl; [apply prefix_empty|].
  destruct (ascii_dec c c) as [_|N]; [exact IH|now elim N].
Qed.

Lemma prefix_split (p s : string) :
  String.prefix p s = true -> exists t, s = p ++ t.
Proof.
  revert s; induction p as [|c p IH]; intros s H.
  - now exists s.
  - destruct s as [|d s]; simpl in H; [discriminate|].
    destruct (ascii_dec c d) as [->|]; [|discriminate].
    destruct (IH _ H) as [t ->]. now exists t.
Qed.

Lemma str_in_empty (s : string) : str_in "" s = true.
Proof. destruct s; reflexivity. Qed.

(** [p in s] holds exactly when [s] reads [a ++ p ++ b]. *)
Lemma str_in_split (p s : string) :
  str_in p s = true -> exists a b, s = a ++ p ++ b.
Proof.
  induction s as [|c s IH]; cbn [str_in]; intros H.
  - destruct p; [now exists "", ""|discriminate].
  - apply orb_true_iff in H as [H|H].
    + destruct (prefix_split _ _ H) as [t ->]. now exists "", t.
    + destruct (IH H) as (a & b & ->). now exists (String c a), b.
Qed.

Lemma str_in_prefix (p s : string) :
  String.prefix p s = true -> str_in p s = true.
Proof.
  intros H. destruct s; cbn [str_in]; now rewrite H.
Qed.

Lemma str_in_app (a p b : string) : str_in p (a ++ p ++ b) = true.
Proof.
  induction a as [|c a IH].
  - cbn [append]. apply str_in_prefix, prefix_app.
  - cbn [append str_in]. rewrite IH. apply orb_true_r.
Qed.

Lemma str_in_iff (p s : string) :
  str_in p s = true <-> exists a b, s = a ++ p ++ b.
Proof.
  split; [apply str_in_split|].
  intros (a & b & ->). apply str_in_app.
Qed.

Lemma str_in_app_l (p a b : string) :
  str_in p a = true -> str_in p (a ++ b) = true.
Proof.
  intros H. apply str_in_split in H as (x & y & ->).
  rewrite !app_assoc. apply str_in_app.
Qed.

Lemma str_in_app_r (p a b : string) :
  str_in p b = true -> str_in p (a ++ b) = true.
Proof.
  intros H. apply str_in_split in H as (x & y & ->).
  rewrite <- app_assoc. apply str_in_app.
Qed.

(** A phrase found in one part is found in the joined text. *)
Lemma str_in_join (p sep x : string) (parts : list string) :
  In x parts -> str_in p x = true -> str_in p (join sep parts) = true.
Proof.
  unfold join. induction parts as [|y parts IH]; intros HIn Hp; [easy|].
  destruct HIn as [->|HIn].
  - destruct parts as [|z parts]; simpl; [exact Hp|].
    now apply str_in_app_l.
  - destruct parts as [|z parts]; [easy|].
    cbn [concat]. apply str_in_app_r, str_in_app_r. now apply IH.
Qed.

End PyStrFacts.


(** ** Facts about dictionaries *)

Module PyDictFacts.

Section Facts.
Context {V : Type}.
Implicit Types (d : PyDict.dict V) (k : string) (v : V).

Lemma get_set_same k v d : PyDict.get k (PyDict.set k v d) = Some v.
Proof.
  induction d as [|[k' v'] d IH]; simpl.
  - now rewrite String.eqb_refl.
  - destruct (String.eqb k' k) eqn:E; simpl; now rewrite E.
Qed.

Lemma get_set_other k k' v d :
  k' <> k -> PyDict.get k (PyDict.set k' v d) = PyDict.get k d.
Proof.
  intros N. induction d as [|[k0 v0] d IH]; simpl.
  - apply String.eqb_neq in N. now rewrite N.
  - destruct (String.eqb k0 k') eqn:E; simpl.
    + apply String.eqb_eq in E as ->.
      apply String.eqb_neq in N. now rewrite N.
    + now rewrite IH.
Qed.

Lemma get_In k v d : PyDict.get k d = Some v -> In (k, v) d.
Proof.
  induction d as [|[k0 v0] d IH]; simpl; [discriminate|].
  destruct (String.eqb k0 k) eqn:E.
  - apply String.eqb_eq in E as ->. intros [= ->]. now left.
  - intros H. right. now apply IH.
Qed.

Lemma In_get k v d : In (k, v) d -> PyDict.get k d <> None.
Proof.
  induction d as [|[k0 v0] d IH]; simpl; [easy|].
  intros [[= -> ->]|H].
  - now rewrite String.eqb_refl.
  - destruct (String.eqb k0 k); [easy|now apply IH].
Qed.

(** An assignment adds no pair but its own. *)
Lemma In_set k v k0 v0 d :
  In (k0, v0) (PyDict.set k v d) -> (k0 = k /\ v0 = v) \/ In (k0, v0) d.
Proof.
  induction d as [|[k1 v1] d IH]; simpl.
  - intros [[= <- <-]|[]]. now left.
  - destruct (String.eqb k1 k) eqn:E; simpl.
    + apply String.eqb_eq in E as ->.
      intros [[= <- <-]|H]; [now left|now right; right].
    + intros [H|H]; [now right; left|].
      destruct (IH H) as [?|?]; [now left|now right; right].
Qed.
End Facts.

End PyDictFacts.

(** ** The search index *)

Module MenuFacts.
Import PyStr PyNum Menu Reading PyStrFacts PyDictFacts.

Lemma index_item_fst (c : string) st (it : MenuItem) :
  fst (index_item c st it) = put (fst st) (mkEntry c it).
Proof.
  unfold index_item, put, key_of; simpl.
  match goal with |- context [if ?b then _ else _] => now destruct b end.
Qed.

Lemma index_category_fst (c : string) (its : list MenuItem) st :
  fst (fold_left (index_item c) its st)
  = fold_left put (map (mkEntry c) its) (fst st).
Proof.
  revert st; induction its as [|it its IH]; intros st; simpl; [reflexivity|].
  now rewrite IH, index_item_fst.
Qed.

(** The index is the walk of the menu replayed as assignments. *)
Lemma build_index_walk (m : menu) st :
  fst (fold_left index_category m st)
  = fold_left put (all_entries m) (fst st).
Proof.
  revert st; induction m as [|[c its] m IH]; intros st; simpl; [reflexivity|].
  rewrite IH, fold_left_app. unfold index_category; simpl.
  now rewrite index_category_fst.
Qed.

Lemma item_index_init (m : menu) :
  item_index (init m) = fold_left put (all_entries m) [].
Proof. unfold init, build_search_index; simpl. apply build_index_walk. Qed.

Lemma map_item_all_entries (m : menu) :
  map item (all_entries m) = all_items m.
Proof.
  induction m as [|[c its] m IH]; simpl; [reflexivity|].
  rewrite map_app, IH, map_map; simpl. now rewrite map_id.
Qed.

(** Reading a key after a run of assignments: the last assignment to that
    key wins, and keys that were not assigned keep their old value. *)
Lemma get_fold_put (k : string) (es : list IndexEntry) idx :
  PyDict.get k (fold_left put es idx)
  = match find (fun e => String.eqb (key_of e) k) (rev es) with
    | Some e => Some e
    | None => PyDict.get k idx
    end.
Proof.
  induction es as [|e es IH] using rev_ind; simpl; [reflexivity|].
  rewrite fold_left_app, rev_app_distr; simpl. unfold put at 1.
  destruct (String.eqb (key_of e) k) eqn:E.
  - apply String.eqb_eq in E as <-. apply get_set_same.
  - apply String.eqb_neq in E. now rewrite get_set_other.
Qed.

Lemma find_map_item (p : MenuItem -> bool) (es : list IndexEntry) :
  option_map item (find (fun e => p (item e)) es) = find p (map item es).
Proof.
  induction es as [|e es IH]; simpl; [reflexivity|].
  now destruct (p (item e)).
Qed.

(** Every pair of the index files an item under its lowercased name. *)
Lemma keys_fold_put (es : list IndexEntry) idx :
  (forall k e, In (k, e) idx -> k = key_of e) ->
  forall k e, In (k, e) (fold_left put es idx) -> k = key_of e.
Proof.
  revert idx; induction es as [|e0 es IH]; intros idx Hidx k e; simpl.
  - apply Hidx.
  - apply IH. intros k1 e1 H. apply In_set in H as [[-> ->]|H].
    + reflexivity.
    + now apply Hidx.
Qed.

Lemma keys_init (m : menu) (k : string) (e : IndexEntry) :
  In (k, e) (item_index (init m)) -> k = key_of e.
Proof.
  rewrite item_index_init. apply keys_fold_put. intros ? ? [].
Qed.

(** The exact step of [get_item_by_name] on a loaded menu. *)
Lemma exact_lookup_init (m : menu) (k : string) :
  option_map item (PyDict.get k (item_index (init m)))
  = last_named k (all_items m).
Proof.
  rewrite item_index_init, get_fold_put. unfold last_named.
  rewrite <- map_item_all_entries, <- map_rev, <- find_map_item.
  simpl. unfold key_of.
  now destruct (find _ (rev (all_entries m))).
Qed.

Lemma last_named_found (k : string) (walk : list MenuItem) (it : MenuItem) :
  In it walk -> lower (name it) = k ->
  exists it', last_named k walk = Some it' /\
              In it' walk /\ lower (name it') = k.
Proof.
  intros HIn Hk. unfold last_named.
  destruct (find _ (rev walk)) as [it'|] eqn:F.
  - apply find_some in F as [H1 H2]. apply String.eqb_eq in H2.
    exists it'. repeat split; [now apply in_rev|exact H2].
  - exfalso. apply in_rev in HIn.
    pose proof (find_none _ _ F _ HIn) as H. simpl in H.
    apply String.eqb_neq in H. now apply H.
Qed.

(** When no two visited items share a lowercased name, the last item of
    that name is the item itself. *)
Lemma last_named_unique (walk : list MenuItem) (it : MenuItem) :
  NoDup (map (fun x => lower (name x)) walk) ->
  In it walk -> last_named (lower (name it)) walk = Some it.
Proof.
  intros ND HIn.
  destruct (last_named_found _ _ _ HIn eq_refl) as (it' & F & HIn' & Hk).
  rewrite F. f_equal.
  clear F. induction walk as [|x walk IH]; [easy|].
  simpl in ND. inversion ND as [|? ? Hx ND']; subst.
  destruct HIn as [->|HIn], HIn' as [->|HIn']; try reflexivity.
  - exfalso. apply Hx. rewrite <- Hk. now apply in_map with (f := fun x => lower (name x)).
  - exfalso. apply Hx. rewrite Hk. now apply in_map with (f := fun x => lower (name x)).
  - now apply IH.
Qed.

End MenuFacts.

(** ** The catalog: search and lookup by name *)

Module CatalogClaims.
Import PyStr PyNum Menu Reading Samples PyStrFacts PyDictFacts MenuFacts.
Local Open Scope string_scope.

(** A word of [s.split()] is a piece of [s]. *)
Lemma split_from_piece (s cur w : string) :
  In w (split_from cur s) -> exists a b, cur ++ s = a ++ w ++ b.
Proof.
  revert cur; induction s as [|c s IH]; intros cur; simpl.
  - destruct cur as [|c0 cur]; [intros []|intros [<-|[]]].
    now exists "", "".
  - destruct (is_space c).
    + destruct cur as [|c0 cur].
      * intros H. destruct (IH _ H) as (a & b & E). simpl in E.
        exists (String c a), b. simpl. now rewrite E.
      * intros [<-|H]; [now exists "", (String c s)|].
        destruct (IH _ H) as (a & b & E). simpl in E.
        exists (String c0 cur ++ String c a), b.
        rewrite app_assoc. simpl. now rewrite E.
    + intros H. destruct (IH _ H) as (a & b & E).
      exists a, b. rewrite <- E, app_assoc. reflexivity.
Qed.

(** The word test of [search_items] accepts nothing the substring test
    refuses. *)
Lemma search_test_is_substring (q nm : string) :
  str_in q nm || existsb (fun word => str_in q word) (split nm)
  = str_in q nm.
Proof.
  destruct (str_in q nm) eqn:E; [reflexivity|]. simpl.
  destruct (existsb _ _) eqn:X; [|reflexivity].
  apply existsb_exists in X as (w & Hw & Hq).
  apply split_from_piece in Hw as (a & b & Hs). simpl in Hs.
  apply str_in_split in Hq as (x & y & ->).
  rewrite <- E, Hs. rewrite !app_assoc, <- (app_assoc a x).
  symmetry. apply str_in_app.
Qed.

Lemma search_items_In (self : OishiiMenuManager) (q : string) (it : MenuItem) :
  In it (search_items self q) ->
  exists k e, In (k, e) (item_index self) /\ item e = it /\
              str_in (lower q) k = true.
Proof.
  unfold search_items. intros H.
  apply in_map_iff in H as ([k e] & <- & H).
  apply filter_In in H as [H T]. rewrite search_test_is_substring in T.
  now exists k, e.
Qed.

(** *** Search with the empty query *)

(** C3, as stated, fails: on the sample menu the empty query returns all
    four items, not the empty list. *)
Lemma C3_empty_query_dumps_sample_menu :
  search_items (init sample_menu) "" = all_items sample_menu /\
  List.length (search_items (init sample_menu) "") = 4.
Proof. split; reflexivity. Qed.

(** C3, amended: the empty string is a substring of every name, so
    [search_items] with the empty query returns the item of every entry of
    the index, in index order; on a loaded menu every visited item is
    represented in the result by the last visited item of the same
    lowercased name, so the result is empty only when the menu has no
    item. *)
Theorem C3_empty_query_returns_whole_index :
  (forall self : OishiiMenuManager,
     search_items self "" = map (fun kv => item (snd kv)) (item_index self)) /\
  (forall (m : menu) (it : MenuItem),
     In it (all_items m) ->
     exists it',
       last_named (lower (name it)) (all_items m) = Some it' /\
       In it' (search_items (init m) "")).
Proof.
  assert (All : forall self : OishiiMenuManager,
     search_items self "" = map (fun kv => item (snd kv)) (item_index self)).
  { intros self. unfold search_items. cbn [lower]. f_equal.
    induction (item_index self) as [|kv idx IH]; [reflexivity|].
    cbn [filter]. rewrite str_in_empty. cbn [orb]. now rewrite IH. }
  split; [exact All|].
  intros m it HIn.
  destruct (last_named_found _ _ _ HIn eq_refl) as (it' & F & _ & _).
  exists it'. split; [exact F|].
  rewrite All. pose proof (exact_lookup_init m (lower (name it))) as L.
  rewrite F in L.
  destruct (PyDict.get _ (item_index (init m))) as [e|] eqn:G; [|discriminate].
  injection L as <-. apply get_In in G.
  now apply (in_map (fun kv => item (snd kv))) in G.
Qed.

Lemma C3_empty_query_witness :
  exists it',
    last_named (lower (name dragon_roll)) (all_items sample_menu) = Some it' /\
    In it' (search_items (init sample_menu) "").
Proof.
  apply (proj2 C3_empty_query_returns_whole_index sample_menu dragon_roll).
  simpl. tauto.
Defined.

(** *** Exact lookup *)

(** C5, as stated, fails: on a menu that lists "Salmon" under Sushi and
    under Sashimi, looking up the lowercased name of the first item
    returns the second, whose price differs. *)
Lemma C5_lookup_returns_other_salmon :
  In salmon_as_sushi (all_items two_salmon_menu) /\
  get_item_by_name (init two_salmon_menu) (lower (name salmon_as_sushi))
  = Some salmon_as_sashimi /\
  price salmon_as_sashimi <> price salmon_as_sushi.
Proof.
  split; [now left|]. split; [reflexivity|].
  intros H. discriminate H.
Qed.

(** C5, amended: for every item visited when the categories of a loaded
    menu are iterated, the lookup of its lowercased name returns the last
    visited item with that lowercased name; it returns the item itself
    whenever no two visited items share a lowercased name. *)
Theorem C5_exact_lookup_returns_last_of_name (m : menu) (it : MenuItem) :
  In it (all_items m) ->
  get_item_by_name (init m) (lower (name it))
  = last_named (lower (name it)) (all_items m) /\
  (exists it',
     get_item_by_name (init m) (lower (name it)) = Some it' /\
     In it' (all_items m) /\ lower (name it') = lower (name it)) /\
  (NoDup (map (fun x => lower (name x)) (all_items m)) ->
   get_item_by_name (init m) (lower (name it)) = Some it).
Proof.
  intros HIn.
  assert (E : get_item_by_name (init m) (lower (name it))
              = last_named (lower (name it)) (all_items m)).
  { unfold get_item_by_name. rewrite lower_idem.
    pose proof (exact_lookup_init m (lower (name it))) as L.
    destruct (last_named_found _ _ _ HIn eq_refl) as (it' & F & _ & _).
    rewrite F in L |- *.
    destruct (PyDict.get _ (item_index (init m))) as [e|]; [|discriminate].
    exact L. }
  split; [exact E|]. rewrite E. split.
  - destruct (last_named_found _ _ _ HIn eq_refl) as (it' & F & H1 & H2).
    now exists it'.
  - intros ND. now apply last_named_unique.
Qed.

Lemma C5_exact_lookup_witness :
  get_item_by_name (init sample_menu) (lower (name salmon_roll))
  = last_named (lower (name salmon_roll)) (all_items sample_menu) /\
  (exists it',
     get_item_by_name (init sample_menu) (lower (name salmon_roll)) = Some it' /\
     In it' (all_items sample_menu) /\
     lower (name it') = lower (name salmon_roll)) /\
  (NoDup (map (fun x => lower (name x)) (all_items sample_menu)) ->
   get_item_by_name (init sample_menu) (lower (name salmon_roll))
   = Some salmon_roll).
Proof.
  apply (C5_exact_lookup_returns_last_of_name sample_menu salmon_roll).
  simpl. right. left. reflexivity.
Defined.

(** *** Lookup by name: the fallback *)

(** C10: when the index has no entry for the lowercased query,
    [get_item_by_name] returns the first result of [search_items] for that
    query, and [None] exactly when there is no result.  On a loaded menu the
    item so returned has the lowercased query inside its lowercased name and
    a name that differs from the query, also when case is ignored. *)
Theorem C10_lookup_falls_back_to_search
    (self : OishiiMenuManager) (query : string) :
  PyDict.get (lower query) (item_index self) = None ->
  get_item_by_name self query = hd_error (search_items self query) /\
  (get_item_by_name self query = None <-> search_items self query = []) /\
  (forall (m : menu) (it : MenuItem),
     self = init m ->
     get_item_by_name self query = Some it ->
     str_in (lower query) (lower (name it)) = true /\
     lower (name it) <> lower query /\
     name it <> query).
Proof.
  intros Miss.
  assert (E : get_item_by_name self query
              = hd_error (search_items self query)).
  { unfold get_item_by_name. now rewrite Miss. }
  split; [exact E|]. split.
  - rewrite E. now destruct (search_items self query).
  - intros m it -> Hit. rewrite E in Hit.
    assert (HIn : In it (search_items (init m) query)).
    { destruct (search_items (init m) query); [discriminate|].
      injection Hit as ->. now left. }
    apply search_items_In in HIn as (k & e & Hke & <- & Hq).
    pose proof (keys_init _ _ _ Hke) as Hk. unfold key_of in Hk. subst k.
    assert (N : lower (name (item e)) <> lower query).
    { intros Eq. rewrite <- Eq in Miss.
      now apply (In_get _ _ _ Hke). }
    repeat split; [exact Hq|exact N|].
    intros Eq. apply N. now rewrite Eq.
Qed.

Lemma C10_lookup_fallback_witness :
  get_item_by_name (init sample_menu) "dragon" = Some dragon_roll /\
  get_item_by_name (init sample_menu) "dragon"
  = hd_error (search_items (init sample_menu) "dragon") /\
  name dragon_roll <> "dragon".
Proof.
  destruct (C10_lookup_falls_back_to_search (init sample_menu) "dragon"
              eq_refl) as (E & _ & D).
  split; [reflexivity|]. split; [exact E|].
  exact (proj2 (proj2 (D sample_menu dragon_roll eq_refl eq_refl))).
Defined.

End CatalogClaims.

(** ** Pricing *)

Module PricingClaims.
Import PyNum Menu Reading Samples.

(** C4: pricing the lines (7.28, 2) and (3.98, 1) with the 13% tax gives
    the subtotal 18.54, a tax that is 2.41 to the cent, and the total
    20.95; whatever the lines, the total is [round(subtotal + tax, 2)]. *)
Theorem C4_pricing_example :
  subtotal_of example_lines = Ok (PyFloat 18.54%float) /\
  (exists tax,
     tax_of (PyFloat 18.54%float) = Ok tax /\
     round2 tax = PyFloat 2.41%float) /\
  calculate_total example_lines true = Ok (PyFloat 20.95%float) /\
  (forall items : list PricedLine,
     calculate_total items true
     = (subtotal <- subtotal_of items ;;
        tax <- tax_of subtotal ;;
        total <- num_add subtotal tax ;;
        Ok (round2 total))).
Proof.
  split; [vm_compute; reflexivity|].
  split; [eexists; split; vm_compute; reflexivity|].
  split; [vm_compute; reflexivity|].
  intros items. reflexivity.
Qed.


Lemma sum_from_float (items : list PricedLine) (acc : float) :
  Forall float_priced items ->
  exists f, sum_from (PyFloat acc) items = Ok (PyFloat f).
Proof.
  revert acc; induction items as [|l items IH]; intros acc H.
  - now exists acc.
  - inversion H as [|? ? (p & q & fq & Hp & Hq & Hf) H']; subst.
    cbn [sum_from]. rewrite Hp, Hq. cbn [get_or num_mul].
    rewrite Hf. cbn [bind num_add]. now apply IH.
Qed.

Lemma subtotal_of_float_priced (items : list PricedLine) :
  Forall float_priced items ->
  subtotal_of items = Ok (PyInt 0) \/
  exists f, subtotal_of items = Ok (PyFloat f).
Proof.
  intros H. unfold subtotal_of. destruct items as [|l items]; [now left|].
  right. inversion H as [|? ? (p & q & fq & Hp & Hq & Hf) H']; subst.
  cbn [sum_from]. rewrite Hp, Hq. cbn [get_or num_mul].
  rewrite Hf. cbn [bind num_add].
  change (float_of_int 0) with (Ok zero). cbn [bind].
  now apply sum_from_float.
Qed.



End PricingClaims.

(** ** The quantity expression *)

Module RegexFacts.
Import PyStr Extract Reading PyStrFacts.
Local Open Scope string_scope.

Lemma space_not_word (c : ascii) : is_space c = true -> is_word c = false.
Proof.
  destruct c as [[] [] [] [] [] [] [] []]; simpl; intros H;
    first [reflexivity | discriminate H].
Qed.

Lemma span_split (f : ascii -> bool) (s a b : string) :
  span f s = (a, b) -> s = a ++ b /\ all_chars f a = true.
Proof.
  revert a b; induction s as [|c s IH]; intros a b; simpl.
  - intros [= <- <-]. now split.
  - destruct (f c) eqn:Fc.
    + destruct (span f s) as [a' b'] eqn:E. intros [= <- <-].
      destruct (IH _ _ eq_refl) as [-> Ha]. simpl. now rewrite Fc, Ha.
    + intros [= <- <-]. now split.
Qed.

(** A run of [f]-characters that is followed by a character outside [f]
    is what [span] cuts off. *)
Lemma span_app (f : ascii -> bool) (a : string) (c : ascii) (b : string) :
  all_chars f a = true -> f c = false ->
  span f (a ++ String c b) = (a, String c b).
Proof.
  intros Ha Fc. induction a as [|x a IH]; simpl.
  - now rewrite Fc.
  - simpl in Ha. apply andb_true_iff in Ha as [Fx Ha].
    now rewrite Fx, (IH Ha).
Qed.

Lemma span_all (f : ascii -> bool) (a : string) :
  all_chars f a = true -> span f a = (a, "").
Proof.
  intros Ha. induction a as [|x a IH]; simpl; [reflexivity|].
  simpl in Ha. apply andb_true_iff in Ha as [Fx Ha].
  now rewrite Fx, (IH Ha).
Qed.

Lemma spaces_then_split (pattern s : string) :
  spaces_then pattern s = true ->
  exists ws post,
    s = ws ++ pattern ++ post /\ ws <> "" /\ all_chars is_space ws = true.
Proof.
  induction s as [|c s IH]; cbn [spaces_then]; [discriminate|].
  intros H. apply andb_true_iff in H as [Sc H].
  apply orb_true_iff in H as [H|H].
  - apply prefix_split in H as [post ->].
    exists (String c ""), post. repeat split; [easy|].
    simpl. now rewrite Sc.
  - destruct (IH H) as (ws & post & -> & _ & Hws).
    exists (String c ws), post. repeat split; [easy|].
    simpl. now rewrite Sc, Hws.
Qed.

Lemma spaces_then_app (pattern ws post : string) :
  ws <> "" -> all_chars is_space ws = true ->
  spaces_then pattern (ws ++ pattern ++ post) = true.
Proof.
  induction ws as [|c ws IH]; [easy|]. intros _ H.
  simpl in H. apply andb_true_iff in H as [Sc Hws].
  cbn [append spaces_then]. rewrite Sc. cbn [andb].
  destruct ws as [|d ws].
  - cbn [append]. now rewrite prefix_app.
  - rewrite IH; [apply orb_true_r|easy|exact Hws].
Qed.

(** A match at the head of [s] is a site with nothing before it. *)
Lemma match_here_site (pattern s w : string) :
  match_here pattern s = Some w -> qty_site pattern s "" w.
Proof.
  unfold match_here. destruct (span is_word s) as [w0 rest] eqn:E.
  apply span_split in E as [-> Hw0].
  destruct w0 as [|c w0]; [discriminate|].
  destruct (spaces_then pattern rest) eqn:T; [|discriminate].
  intros [= <-].
  apply spaces_then_split in T as (ws & post & -> & Hne & Hws).
  exists ws, post. repeat split; easy.
Qed.

(** A site with nothing before it is where the expression matches, with
    the word of the site as its group. *)
Lemma site_match_here (pattern s w : string) :
  qty_site pattern s "" w -> match_here pattern s = Some w.
Proof.
  intros (ws & post & -> & Hw & Aw & Hws & Aws).
  cbn [append]. unfold match_here.
  destruct ws as [|c ws]; [easy|].
  cbn [append]. rewrite span_app; [| exact Aw |].
  - destruct w; [easy|].
    change (String c (ws ++ pattern ++ post))
      with (String c ws ++ pattern ++ post).
    now rewrite spaces_then_app.
  - apply space_not_word. simpl in Aws.
    now apply andb_true_iff in Aws as [? _].
Qed.

Lemma re_search_qty_unfold (pattern s : string) :
  re_search_qty pattern s
  = match match_here pattern s with
    | Some w => Some w
    | None =>
        match s with
        | "" => None
        | String _ s' => re_search_qty pattern s'
        end
    end.
Proof. destruct s; reflexivity. Qed.

Lemma site_cons (pattern s pre w : string) (c : ascii) :
  qty_site pattern s pre w <-> qty_site pattern (String c s) (String c pre) w.
Proof.
  split; intros (ws & post & E & H); exists ws, post; split; try exact H.
  - cbn [append]. now rewrite E.
  - cbn [append] in E. now injection E.
Qed.

Lemma site_nonempty (pattern pre w : string) : ~ qty_site pattern "" pre w.
Proof.
  intros (ws & post & E & Hw & _). destruct pre, w; simpl in E; easy.
Qed.

(** The search returns the word of the leftmost site. *)
Lemma re_search_qty_leftmost (pattern s w : string) :
  re_search_qty pattern s = Some w <->
  exists pre,
    qty_site pattern s pre w /\
    forall pre' w', qty_site pattern s pre' w' ->
                    String.length pre <= String.length pre'.
Proof.
  induction s as [|c s IH]; rewrite re_search_qty_unfold.
  - cbn. split; [discriminate|].
    intros (pre & H & _). now apply site_nonempty in H.
  - destruct (match_here pattern (String c s)) as [w0|] eqn:M.
    + apply match_here_site in M as Site. split.
      * intros [= <-]. exists "". split; [exact Site|]. intros; simpl; lia.
      * intros (pre & H & Min). specialize (Min _ _ Site).
        destruct pre; [|simpl in Min; lia].
        apply site_match_here in H. congruence.
    + rewrite IH. split.
      * intros (pre & H & Min). exists (String c pre). split.
        -- now apply site_cons.
        -- intros pre' w' H'. destruct pre' as [|d pre'].
           ++ apply site_match_here in H'. congruence.
           ++ assert (d = c) as ->.
              { destruct H' as (? & ? & E & _). cbn in E. now injection E. }
              apply site_cons in H'. specialize (Min _ _ H'). simpl; lia.
      * intros (pre & H & Min). destruct pre as [|d pre].
        -- apply site_match_here in H. congruence.
        -- assert (d = c) as ->.
           { destruct H as (? & ? & E & _). cbn in E. now injection E. }
           exists pre. split; [now apply site_cons in H|].
           intros pre' w' H'. apply (site_cons _ _ _ _ c) in H'.
           specialize (Min _ _ H'). simpl in Min; lia.
Qed.

Lemma re_search_qty_none (pattern s : string) :
  re_search_qty pattern s = None <->
  forall pre w, ~ qty_site pattern s pre w.
Proof.
  induction s as [|c s IH]; rewrite re_search_qty_unfold.
  - cbn. split; [intros _ pre w; apply site_nonempty|easy].
  - destruct (match_here pattern (String c s)) as [w0|] eqn:M.
    + split; [discriminate|]. intros H. apply match_here_site in M.
      now apply H in M.
    + rewrite IH. split.
      * intros H pre w S. destruct pre as [|d pre].
        -- apply site_match_here in S. congruence.
        -- assert (d = c) as ->.
           { destruct S as (? & ? & E & _). cbn in E. now injection E. }
           apply site_cons in S. now apply H in S.
      * intros H pre w S. apply (site_cons _ _ _ _ c) in S. now apply H in S.
Qed.

(** *** The wording of the specification *)

Lemma word_not_space (c : ascii) : is_word c = true -> is_space c = false.
Proof.
  intros H. destruct (is_space c) eqn:E; [|reflexivity].
  apply space_not_word in E. congruence.
Qed.

Lemma rev_string_app (a b : string) :
  rev_string (a ++ b) = rev_string b ++ rev_string a.
Proof.
  induction a as [|c a IH]; simpl.
  - now rewrite app_empty_r.
  - now rewrite IH, app_assoc.
Qed.

Lemma rev_string_involutive (s : string) : rev_string (rev_string s) = s.
Proof.
  induction s as [|c s IH]; simpl; [reflexivity|].
  now rewrite rev_string_app, IH.
Qed.

Lemma all_chars_app (f : ascii -> bool) (a b : string) :
  all_chars f (a ++ b) = all_chars f a && all_chars f b.
Proof.
  induction a as [|c a IH]; simpl; [reflexivity|].
  now rewrite IH, andb_assoc.
Qed.

Lemma all_chars_rev (f : ascii -> bool) (s : string) :
  all_chars f (rev_string s) = all_chars f s.
Proof.
  induction s as [|c s IH]; simpl; [reflexivity|].
  rewrite all_chars_app, IH. simpl. rewrite andb_true_r. apply andb_comm.
Qed.

Lemma rev_string_empty (s : string) : rev_string s = "" -> s = "".
Proof.
  intros H. rewrite <- (rev_string_involutive s), H. reflexivity.
Qed.

(** [span] stops a run at the end of the text or at the first character
    outside the class. *)
Lemma span_run (f : ascii -> bool) (a b : string) :
  all_chars f a = true ->
  match b with "" => True | String c _ => f c = false end ->
  span f (a ++ b) = (a, b).
Proof.
  intros Ha Hb. destruct b as [|c b].
  - rewrite app_empty_r. now apply span_all.
  - now apply span_app.
Qed.

Lemma before_first_split (phrase text a : string) :
  before_first phrase text = Some a -> exists b, text = a ++ phrase ++ b.
Proof.
  revert a; induction text as [|c text IH]; intros a; cbn [before_first].
  - destruct (String.prefix phrase "") eqn:P; [|discriminate].
    intros [= <-]. apply prefix_split in P as [t Et]. now exists t.
  - destruct (String.prefix phrase (String c text)) eqn:P.
    + intros [= <-]. apply prefix_split in P as [t Et]. now exists t.
    + destruct (before_first phrase text) as [a0|]; [|discriminate].
      intros [= <-]. destruct (IH _ eq_refl) as [b ->]. now exists b.
Qed.

Lemma before_first_found (phrase a b : string) :
  exists a0, before_first phrase (a ++ phrase ++ b) = Some a0.
Proof.
  induction a as [|c a IH].
  - cbn [append]. exists "".
    destruct (phrase ++ b) eqn:E; cbn [before_first];
      rewrite <- E; now rewrite prefix_app.
  - cbn [append before_first].
    destruct (String.prefix phrase (String c (a ++ phrase ++ b)));
      [now exists ""|].
    destruct IH as [a0 ->]. now exists (String c a0).
Qed.

(** What [preceding_word] returns is a word of the text it is given,
    with white space and nothing else after it. *)
Lemma preceding_word_split (before w : string) :
  preceding_word before = Some w ->
  exists pre ws,
    before = pre ++ w ++ ws /\
    w <> "" /\ all_chars is_word w = true /\
    ws <> "" /\ all_chars is_space ws = true.
Proof.
  unfold preceding_word.
  destruct (span is_space (rev_string before)) as [ws rest] eqn:E1.
  apply span_split in E1 as [E1 Hws].
  destruct ws as [|c ws]; [discriminate|].
  destruct (span is_word rest) as [w0 rest'] eqn:E2.
  apply span_split in E2 as [-> Hw0].
  destruct w0 as [|d w0]; [discriminate|]. intros [= <-].
  exists (rev_string rest'), (rev_string (String c ws)).
  repeat split.
  - rewrite <- (rev_string_involutive before), E1.
    now rewrite !rev_string_app, app_assoc.
  - intros H. now apply (rev_string_empty (String d w0)) in H.
  - exact (eq_trans (all_chars_rev is_word (String d w0)) Hw0).
  - intros H. now apply (rev_string_empty (String c ws)) in H.
  - exact (eq_trans (all_chars_rev is_space (String c ws)) Hws).
Qed.

(** The word before the white space that ends the text, when no word
    character stands before that word. *)
Lemma preceding_word_app (pre w ws : string) :
  w <> "" -> all_chars is_word w = true ->
  ws <> "" -> all_chars is_space ws = true ->
  match rev_string pre with
  | "" => True
  | String c _ => is_word c = false
  end ->
  preceding_word (pre ++ w ++ ws) = Some w.
Proof.
  intros Hw Aw Hws Aws Hpre. unfold preceding_word.
  rewrite !rev_string_app.
  assert (Rw : rev_string w <> "") by (intros H; now apply rev_string_empty in H).
  assert (Rws : rev_string ws <> "") by (intros H; now apply rev_string_empty in H).
  rewrite app_assoc.
  rewrite (span_run is_space (rev_string ws) (rev_string w ++ rev_string pre)).
  - destruct (rev_string ws) as [|c r]; [easy|].
    rewrite (span_run is_word (rev_string w) (rev_string pre));
      [| now rewrite all_chars_rev | exact Hpre].
    destruct (rev_string w) as [|d r'] eqn:E; [easy|].
    now rewrite <- E, rev_string_involutive.
  - now rewrite all_chars_rev.
  - destruct (rev_string w) as [|d r'] eqn:E; [easy|]. cbn [append].
    apply word_not_space.
    assert (A : all_chars is_word (rev_string w) = true)
      by now rewrite all_chars_rev.
    rewrite E in A. simpl in A. now apply andb_true_iff in A as [? _].
Qed.

(** No word character stands just before the leftmost site. *)
Lemma leftmost_site_starts_word (pattern text pre w : string) :
  qty_site pattern text pre w ->
  (forall pre' w', qty_site pattern text pre' w' ->
                   String.length pre <= String.length pre') ->
  match rev_string pre with
  | "" => True
  | String c _ => is_word c = false
  end.
Proof.
  intros (ws & post & E & Hw & Aw & Hws & Aws) Min.
  destruct (rev_string pre) as [|c r] eqn:R; [exact I|].
  destruct (is_word c) eqn:Wc; [exfalso|reflexivity].
  assert (P : pre = rev_string r ++ String c "").
  { rewrite <- (rev_string_involutive pre), R. reflexivity. }
  assert (S : qty_site pattern text (rev_string r) (String c w)).
  { exists ws, post. repeat split; try easy.
    - rewrite E, P, app_assoc. reflexivity.
    - simpl. now rewrite Wc, Aw. }
  specialize (Min _ _ S). rewrite P in Min.
  rewrite length_app in Min. simpl in Min. lia.
Qed.

(** Where the phrase occurs once, the code resolves the quantity as the
    specification words it. *)
Lemma quantity_for_spec_quantity (phrase text : string) :
  occurs_once phrase text ->
  quantity_for phrase text = spec_quantity phrase text.
Proof.
  intros (a & b & E & Uniq). unfold quantity_for, spec_quantity.
  destruct (before_first_found phrase a b) as [a0 F].
  rewrite <- E in F. rewrite F.
  destruct (before_first_split _ _ _ F) as [b0 E0].
  destruct (re_search_qty phrase text) as [w|] eqn:R.
  - apply re_search_qty_leftmost in R as (pre & S & Min).
    pose proof (leftmost_site_starts_word _ _ _ _ S Min) as Hpre.
    destruct S as (ws & post & Es & Hw & Aw & Hws & Aws).
    assert (a0 = pre ++ w ++ ws) as ->.
    { rewrite (Uniq _ _ E0). symmetry. apply (Uniq _ post).
      rewrite Es, !app_assoc. reflexivity. }
    now rewrite preceding_word_app.
  - destruct (preceding_word a0) as [w|] eqn:P; [exfalso|reflexivity].
    apply preceding_word_split in P as (pre & ws & -> & H).
    rewrite re_search_qty_none in R. apply (R pre w).
    exists ws, b0. split; [|exact H].
    rewrite E0, !app_assoc. reflexivity.
Qed.

End RegexFacts.

(** ** Extraction of the ordered items *)

Module ExtractClaims.
Import PyStr PyNum Menu Extract Reading Samples PyStrFacts RegexFacts.
Local Open Scope string_scope.

(** C2, as stated, fails: "Dragon Roll" is on the sample menu and its
    lowercased name occurs in the text of the call, yet no line is
    extracted for it. *)
Lemma C2_dragon_roll_is_not_extracted :
  In dragon_roll (all_items sample_menu) /\
  str_in (lower (name dragon_roll)) (full_conversation empty_order_call)
  = true /\
  extract_items_from_conversation (init sample_menu) empty_order_call = [].
Proof.
  split; [simpl; tauto|]. split; reflexivity.
Qed.

Lemma lines_for_In (self : OishiiMenuManager) (text pattern item_name : string)
    (l : OrderLine) :
  In l (lines_for self text (pattern, item_name)) <->
  str_in pattern text = true /\
  exists menu_item,
    get_item_by_name self item_name = Some menu_item /\
    l = mkLine (name menu_item) (price menu_item)
               (quantity_for pattern text) "".
Proof.
  unfold lines_for. destruct (str_in pattern text).
  - destruct (get_item_by_name self item_name) as [mi|].
    + split.
      * intros [<-|[]]. split; [reflexivity|]. now exists mi.
      * intros (_ & mi' & [= <-] & ->). now left.
    + split; [intros []|]. now intros (_ & mi' & [=] & _).
  - split; [intros []|]. now intros [[=] _].
Qed.

(** C2, amended: the phrases scanned for are the eight of the pattern
    table, not the names of the catalog.  A line is extracted exactly for
    each pair (phrase, name) of the table whose phrase occurs in the
    lowercased text and whose name [get_item_by_name] finds on the menu; the
    line carries the name and price of the item found and the quantity
    resolved for the phrase.  For a catalog item outside the table nothing is
    scanned. *)
Theorem C2_lines_come_from_pattern_table
    (self : OishiiMenuManager) (conversation_history : list Msg)
    (l : OrderLine) :
  In l (extract_items_from_conversation self conversation_history) <->
  exists pattern item_name menu_item,
    In (pattern, item_name) item_patterns /\
    str_in pattern (full_conversation conversation_history) = true /\
    get_item_by_name self item_name = Some menu_item /\
    l = mkLine (name menu_item) (price menu_item)
               (quantity_for pattern (full_conversation conversation_history))
               "".
Proof.
  unfold extract_items_from_conversation. rewrite in_flat_map. split.
  - intros ([pattern item_name] & HIn & Hl).
    apply lines_for_In in Hl as (Hp & mi & Hg & ->).
    now exists pattern, item_name, mi.
  - intros (pattern & item_name & mi & HIn & Hp & Hg & ->).
    exists (pattern, item_name). split; [exact HIn|].
    apply lines_for_In. split; [exact Hp|]. now exists mi.
Qed.

Lemma C2_extraction_witness :
  In (mkLine "California Roll" (PyFloat 7.28%float) 2 "")
     (extract_items_from_conversation (init sample_menu) completed_call).
Proof.
  apply (proj2 (C2_lines_come_from_pattern_table (init sample_menu)
                  completed_call _)).
  exists "california roll", "California Roll", california_roll.
  repeat split. simpl. tauto.
Defined.

(** C6, as stated, fails: the dish is named first with no word before it
    and named again after "two".  The word before the phrase matched by the
    substring scan is absent, which gives 1; the code answers 2. *)
Lemma C6_repeated_phrase_takes_later_word :
  before_first "california roll" (full_conversation restated_call)
  = Some "" /\
  spec_quantity "california roll" (full_conversation restated_call) = 1%Z /\
  map ol_quantity
      (extract_items_from_conversation (init sample_menu) restated_call)
  = [2%Z].
Proof. repeat split. Qed.

(** C6, amended: on a text of ASCII characters, the quantity of a line is
    resolved at the leftmost place of the text where a word, white space
    and the phrase follow one another (the phrase may occur earlier without
    them).  If that word is in the table one..five the quantity is its
    value and otherwise 1; without such a place the quantity is 1.  When
    the phrase occurs once, this is the word immediately preceding the
    phrase.  "two california roll" gives 2, "california roll" alone
    gives 1. *)
Theorem C6_quantity_from_leftmost_site :
  (forall (self : OishiiMenuManager) (text pattern item_name : string)
          (l : OrderLine),
     isascii text = true ->
     In l (lines_for self text (pattern, item_name)) ->
     (forall pre w,
        qty_site pattern text pre w ->
        (forall pre' w', qty_site pattern text pre' w' ->
                         String.length pre <= String.length pre') ->
        ol_quantity l = PyDict.get_default w 1%Z qty_map) /\
     ((forall pre w, ~ qty_site pattern text pre w) -> ol_quantity l = 1%Z) /\
     (occurs_once pattern text ->
      ol_quantity l = spec_quantity pattern text)) /\
  qty_map = [("one", 1); ("two", 2); ("three", 3); ("four", 4); ("five", 5)]%Z /\
  map ol_quantity
      (extract_items_from_conversation (init sample_menu)
         [mkMsg "user" "two california roll"]) = [2%Z] /\
  map ol_quantity
      (extract_items_from_conversation (init sample_menu)
         [mkMsg "user" "california roll"]) = [1%Z].
Proof.
  split; [|repeat split].
  intros self text pattern item_name l _ Hl.
  apply lines_for_In in Hl as (_ & mi & _ & ->). cbn [ol_quantity].
  repeat split.
  - intros pre w S Min. unfold quantity_for.
    assert (R : re_search_qty pattern text = Some w).
    { apply re_search_qty_leftmost. now exists pre. }
    now rewrite R.
  - intros No. unfold quantity_for.
    apply re_search_qty_none in No. now rewrite No.
  - apply quantity_for_spec_quantity.
Qed.

Lemma C6_quantity_witness :
  ol_quantity (mkLine "California Roll" (PyFloat 7.28%float) 2 "")
  = PyDict.get_default "two" 1%Z qty_map.
Proof.
  refine (proj1 (proj1 C6_quantity_from_leftmost_site
                   (init sample_menu) "two california roll"
                   "california roll" "California Roll" _ _ _) "" "two" _ _).
  - reflexivity.
  - left. reflexivity.
  - exists " ", "". repeat split; easy.
  - intros pre' w' _. simpl. lia.
Defined.

End ExtractClaims.

(** ** The order record and the disconnect handler *)

Module BotClaims.
Import PyStr PyNum Menu Extract Bot Reading Samples PyStrFacts.
Import SessionReading SessionSamples.
Local Open Scope string_scope.

Lemma lower_join (sep : string) (parts : list string) :
  lower (join sep parts) = join (lower sep) (map lower parts).
Proof.
  unfold join. induction parts as [|x parts IH]; [reflexivity|].
  destruct parts as [|y parts]; [reflexivity|].
  change (concat sep (x :: y :: parts))
    with (x ++ sep ++ concat sep (y :: parts)).
  rewrite !lower_app, IH. reflexivity.
Qed.

(** A phrase said in one message, in any case, is in the text the bot
    scans. *)
Lemma conversation_text_has (phrase : string) (conv : list Msg) (msg : Msg) :
  In msg conv -> str_in phrase (lower (content msg)) = true ->
  str_in phrase (conversation_text conv) = true.
Proof.
  intros HIn H. unfold conversation_text. rewrite lower_join.
  apply str_in_join with (x := lower (content msg)); [|exact H].
  rewrite map_map. now apply (in_map (fun m => lower (content m))).
Qed.

(** C9: the rule of the claim is the one [order_type_of] applies, but the
    text it is applied to is not what was said in the call: the system
    message is joined in, and the system prompt asks "dine-in, takeout, or
    delivery".  In the session of a caller who asks for takeout, neither
    "dine in", "dining in" nor "delivery" is said, the rule gives "takeout"
    on what was said, and the order is labelled "delivery".  The
    precedence itself holds: a session in which "delivery" and then
    "Dining In" is said is labelled "dine-in". *)
Lemma C9_takeout_call_is_labelled_delivery :
  str_in "dine in" (full_conversation takeout_session) = false /\
  str_in "dining in" (full_conversation takeout_session) = false /\
  str_in "delivery" (full_conversation takeout_session) = false /\
  order_type_of (full_conversation takeout_session) = "takeout" /\
  order_type (create_order_data (init sample_menu)
                Customer.extract_customer_info no_isoformat
                takeout_session 0) = "delivery" /\
  order_type (create_order_data (init sample_menu)
                Customer.extract_customer_info no_isoformat
                (said_in takeout_session) 0) = "takeout" /\
  str_in "delivery" (full_conversation dining_in_session) = true /\
  order_type (create_order_data (init sample_menu)
                Customer.extract_customer_info no_isoformat
                dining_in_session 0) = "dine-in".
Proof. repeat split; vm_compute; reflexivity. Qed.

Section Handler.
Variable menu_manager : OishiiMenuManager.
Variable extract_customer_info : list Msg -> CustomerInfo.
Variable isoformat : Z -> string.
Variable Response : Type.
Variable webhook : list OrderData -> OrderData -> option Response.
Variable truthy : Response -> bool.

Local Abbreviation handler :=
  (on_client_disconnected menu_manager extract_customer_info isoformat
     Response webhook truthy).
Local Abbreviation order_at :=
  (create_order_data menu_manager extract_customer_info isoformat).

Lemma completion_test (messages : list Msg) :
  existsb (fun phrase => str_in phrase (conversation_text messages))
          order_completion_indicators = true <->
  exists phrase,
    In phrase order_completion_indicators /\
    str_in phrase (conversation_text messages) = true.
Proof. apply existsb_exists. Qed.

(** One run of the handler on a completed conversation with items posts
    the order once, whatever the webhook answers. *)
Lemma handler_posts_once (messages : list Msg) (now : Z)
    (posts : list OrderData) :
  (exists phrase,
     In phrase order_completion_indicators /\
     str_in phrase (conversation_text messages) = true) ->
  extract_items_from_conversation menu_manager messages <> [] ->
  snd (handler messages now posts) = (posts ++ [order_at messages now])%list.
Proof.
  intros Done Items. apply completion_test in Done.
  unfold on_client_disconnected.
  fold (conversation_text messages). rewrite Done.
  cbn [create_order_data items].
  destruct (extract_items_from_conversation menu_manager messages) eqn:E;
    [easy|].
  unfold send_order_to_n8n.
  destruct (webhook posts _) as [r|]; [destruct (truthy r)|]; reflexivity.
Qed.

(** C1, amended: the handler keeps no record of a submission.  On a
    completed conversation with at least one extracted item every run of the
    handler posts the order to the webhook once, so firing the handler [n]
    times for one session posts [n] orders. *)
Theorem C1_every_disconnect_posts (messages : list Msg) (times : list Z)
    (posts : list OrderData) :
  (exists phrase,
     In phrase order_completion_indicators /\
     str_in phrase (conversation_text messages) = true) ->
  extract_items_from_conversation menu_manager messages <> [] ->
  disconnects menu_manager extract_customer_info isoformat Response webhook
    truthy messages times posts
  = (posts ++ map (order_at messages) times)%list /\
  List.length
    (disconnects menu_manager extract_customer_info isoformat Response
       webhook truthy messages times posts)
  = List.length posts + List.length times.
Proof.
  intros Done Items.
  assert (E : disconnects menu_manager extract_customer_info isoformat
                Response webhook truthy messages times posts
              = (posts ++ map (order_at messages) times)%list).
  { revert posts; induction times as [|now later IH]; intros posts.
    - cbn. now rewrite app_nil_r.
    - cbn [disconnects map].
      rewrite (handler_posts_once _ _ _ Done Items), IH.
      now rewrite <- List.app_assoc. }
  split; [exact E|].
  rewrite E, List.length_app, List.length_map. reflexivity.
Qed.
End Handler.

(** C1, as stated, fails: the handler fired twice for the session of a
    completed call posts two orders. *)
Lemma C1_two_disconnects_post_twice :
  List.length
    (disconnects (init sample_menu) no_customer no_isoformat bool
       accepting_webhook bool_truthy completed_call [0%Z; 1%Z] [])
  = 2.
Proof. reflexivity. Qed.

Lemma C1_disconnect_witness :
  List.length
    (disconnects (init sample_menu) no_customer no_isoformat bool
       accepting_webhook bool_truthy completed_call [0%Z; 1%Z; 2%Z] [])
  = 0 + 3.
Proof.
  refine (proj2 (C1_every_disconnect_posts (init sample_menu) no_customer
                   no_isoformat bool accepting_webhook bool_truthy
                   completed_call [0%Z; 1%Z; 2%Z] [] _ _)).
  - exists "being prepared". split; [|reflexivity].
    simpl. tauto.
  - discriminate.
Defined.

(** C7: the gate is there, but the text it tests is not what was said in
    the call: the system message is joined in, and the system prompt quotes
    the completion phrases "process this order" and "being prepared".  In
    the session of a caller who names a dish and hangs up, none of the
    completion phrases is said, and the order is posted all the same; run
    on what was said alone, the handler reports an unfinished
    conversation.  The second half of the gate holds: a confirmed session
    in which no item is found posts nothing. *)
Lemma C7_unconfirmed_call_is_posted :
  existsb (fun phrase => str_in phrase (full_conversation hung_up_session))
          order_completion_indicators = false /\
  fst (on_client_disconnected (init sample_menu)
         Customer.extract_customer_info no_isoformat bool accepting_webhook
         bool_truthy hung_up_session 0%Z []) = SentToKitchen /\
  map items
      (snd (on_client_disconnected (init sample_menu)
              Customer.extract_customer_info no_isoformat bool
              accepting_webhook bool_truthy hung_up_session 0%Z []))
  = [[mkLine "California Roll" (PyFloat 7.28%float) 2 ""]] /\
  on_client_disconnected (init sample_menu)
    Customer.extract_customer_info no_isoformat bool accepting_webhook
    bool_truthy (said_in hung_up_session) 0%Z []
  = (NotCompleted, []) /\
  extract_items_from_conversation (init sample_menu) no_item_session = [] /\
  on_client_disconnected (init sample_menu)
    Customer.extract_customer_info no_isoformat bool accepting_webhook
    bool_truthy no_item_session 0%Z []
  = (NoItemsFound, []).
Proof. repeat split; vm_compute; reflexivity. Qed.

End BotClaims.

(** ** The index and the queries of the menu manager *)

Module MenuMoreFacts.
Import PyStr PyNum Menu MenuMore Reading PyStrFacts PyDictFacts MenuFacts.
Import CatalogClaims.
Local Open Scope string_scope.

Lemma keys_set {V : Type} (k : string) (v : V) (d : PyDict.dict V) :
  map fst (PyDict.set k v d)
  = if existsb (String.eqb k) (map fst d) then map fst d
    else (map fst d ++ [k])%list.
Proof.
  induction d as [|[k0 v0] d IH]; simpl; [reflexivity|].
  destruct (String.eqb k0 k) eqn:E; simpl.
  - rewrite String.eqb_sym, E. reflexivity.
  - rewrite String.eqb_sym, E, IH. simpl.
    now destruct (existsb (String.eqb k) (map fst d)).
Qed.

Lemma NoDup_keys_set {V : Type} (k : string) (v : V) (d : PyDict.dict V) :
  NoDup (map fst d) -> NoDup (map fst (PyDict.set k v d)).
Proof.
  intros ND. rewrite keys_set.
  destruct (existsb (String.eqb k) (map fst d)) eqn:E; [exact ND|].
  apply NoDup_app; [exact ND|repeat constructor; easy|].
  intros x Hx [E'|[]]. subst x.
  assert (existsb (String.eqb k) (map fst d) = true); [|congruence].
  apply existsb_exists. exists k. split; [exact Hx|apply String.eqb_refl].
Qed.

Lemma NoDup_keys_fold_put (es : list IndexEntry) idx :
  NoDup (map fst idx) -> NoDup (map fst (fold_left put es idx)).
Proof.
  revert idx; induction es as [|e es IH]; intros idx ND; simpl; [exact ND|].
  apply IH. now apply NoDup_keys_set.
Qed.

Lemma entries_fold_put (es : list IndexEntry) idx (k : string)
    (e : IndexEntry) :
  In (k, e) (fold_left put es idx) -> In (k, e) idx \/ In e es.
Proof.
  revert idx; induction es as [|e0 es IH]; intros idx; simpl; [now left|].
  intros H. destruct (IH _ H) as [H'|H']; [|now right; right].
  apply In_set in H' as [[_ ->]|H']; [now right; left|now left].
Qed.

Lemma all_entries_listed (m : menu) (e : IndexEntry) :
  In e (all_entries m) <->
  exists its, In (category e, its) m /\ In (item e) its.
Proof.
  unfold all_entries. rewrite in_flat_map. split.
  - intros ([c its] & Hm & He). simpl in He.
    apply in_map_iff in He as (it & <- & Hit). now exists its.
  - intros (its & Hm & Hit). exists (category e, its). split; [exact Hm|].
    simpl. apply in_map_iff. exists (item e). split; [now destruct e|exact Hit].
Qed.

Lemma all_items_listed (m : menu) (it : MenuItem) :
  In it (all_items m) <-> exists c its, In (c, its) m /\ In it its.
Proof.
  unfold all_items. rewrite in_flat_map. split.
  - intros ([c its] & Hm & Hit). now exists c, its.
  - intros (c & its & Hm & Hit). now exists (c, its).
Qed.

(** The index of a loaded menu has one entry for each lowercased name of
    the menu: its keys are pairwise distinct, a string is a key exactly
    when it is the lowercased name of a listed item, and every entry is
    filed under the lowercased name of its own item, which the menu lists
    in the category the entry records. *)
Theorem index_of_loaded_menu (m : menu) :
  NoDup (map fst (item_index (init m))) /\
  (forall k, In k (map fst (item_index (init m))) <->
             exists it, In it (all_items m) /\ lower (name it) = k) /\
  (forall k e, In (k, e) (item_index (init m)) ->
               k = lower (name (item e)) /\
               exists its, In (category e, its) m /\ In (item e) its).
Proof.
  assert (Own : forall k e, In (k, e) (item_index (init m)) ->
               k = lower (name (item e)) /\
               exists its, In (category e, its) m /\ In (item e) its).
  { intros k e H. split; [exact (keys_init _ _ _ H)|].
    rewrite item_index_init in H.
    apply entries_fold_put in H as [[]|H]. now apply all_entries_listed. }
  split; [|split; [|exact Own]].
  - rewrite item_index_init. apply NoDup_keys_fold_put. constructor.
  - intros k. split.
    + intros H. apply in_map_iff in H as ([k0 e] & <- & H).
      destruct (Own _ _ H) as [-> (its & Hm & Hit)].
      exists (item e). split; [|reflexivity].
      apply all_items_listed. now exists (category e), its.
    + intros (it & HIn & <-).
      destruct (last_named_found _ _ _ HIn eq_refl) as (it' & F & _ & _).
      pose proof (exact_lookup_init m (lower (name it))) as L.
      rewrite F in L.
      destruct (PyDict.get _ (item_index (init m))) as [e|] eqn:G;
        [|discriminate].
      apply get_In in G.
      now apply (in_map fst) in G.
Qed.

Lemma str_in_refl (s : string) : str_in s s = true.
Proof.
  apply str_in_iff. exists "", "". cbn [append]. now rewrite app_empty_r.
Qed.

Lemma search_items_filter (self : OishiiMenuManager) (query : string) :
  search_items self query
  = map (fun kv => item (snd kv))
        (filter (fun kv => str_in (lower query) (fst kv)) (item_index self)).
Proof.
  unfold search_items. f_equal. apply filter_ext.
  intros kv. apply search_test_is_substring.
Qed.

Lemma NoDup_filter_keys {V : Type} (f : string * V -> bool)
    (d : PyDict.dict V) :
  NoDup (map fst d) -> NoDup (map fst (filter f d)).
Proof.
  induction d as [|kv d IH]; simpl; intros ND; [constructor|].
  inversion ND as [|? ? Hk ND']; subst.
  destruct (f kv); simpl; [|now apply IH].
  constructor; [|now apply IH].
  intros H. apply Hk. apply in_map_iff in H as (kv' & E & H).
  apply filter_In in H as [H _]. apply in_map_iff. now exists kv'.
Qed.

(** [search_items] on a loaded menu: the whole-word test adds nothing to
    the substring test and the case of the query is ignored.  Every result
    is a listed item whose lowercased name contains the lowercased query;
    no two results share a lowercased name; and every listed item whose
    lowercased name contains the lowercased query has a result of the same
    lowercased name. *)
Theorem search_items_on_loaded_menu (m : menu) (query : string) :
  (forall it, In it (search_items (init m) query) ->
              In it (all_items m) /\
              str_in (lower query) (lower (name it)) = true) /\
  NoDup (map (fun it => lower (name it)) (search_items (init m) query)) /\
  (forall it, In it (all_items m) ->
              str_in (lower query) (lower (name it)) = true ->
              exists it', In it' (search_items (init m) query) /\
                          lower (name it') = lower (name it)).
Proof.
  destruct (index_of_loaded_menu m) as (ND & Keys & Own).
  split; [|split].
  - intros it H. apply search_items_In in H as (k & e & He & <- & Hq).
    destruct (Own _ _ He) as [-> (its & Hm & Hit)]. split; [|exact Hq].
    apply all_items_listed. now exists (category e), its.
  - rewrite search_items_filter, map_map.
    assert (E : map (fun kv => lower (name (item (snd kv))))
                  (filter (fun kv => str_in (lower query) (fst kv))
                          (item_index (init m)))
                = map fst
                    (filter (fun kv => str_in (lower query) (fst kv))
                            (item_index (init m)))).
    { apply map_ext_in. intros [k e] H. apply filter_In in H as [H _].
      simpl. now destruct (Own _ _ H) as [-> _]. }
    rewrite E. now apply NoDup_filter_keys.
  - intros it HIn Hq.
    assert (Hk : In (lower (name it)) (map fst (item_index (init m)))).
    { apply Keys. now exists it. }
    apply in_map_iff in Hk as ([k e] & Ek & He). simpl in Ek. subst k.
    exists (item e). split.
    + rewrite search_items_filter.
      apply (in_map (fun kv => item (snd kv)) _ (lower (name it), e)).
      apply filter_In. now split.
    + now destruct (Own _ _ He) as [<- _].
Qed.

(** [get_item_by_name] on a loaded menu never returns an item the menu does
    not list: what it returns is a listed item whose lowercased name
    contains the lowercased query, and it returns [None] exactly when no
    listed item has such a name. *)
Theorem get_item_by_name_on_loaded_menu (m : menu) (query : string) :
  (forall it, get_item_by_name (init m) query = Some it ->
              In it (all_items m) /\
              str_in (lower query) (lower (name it)) = true) /\
  (get_item_by_name (init m) query = None <->
   forall it, In it (all_items m) ->
              str_in (lower query) (lower (name it)) = false).
Proof.
  destruct (index_of_loaded_menu m) as (ND & Keys & Own).
  destruct (search_items_on_loaded_menu m query) as (Sound & _ & Complete).
  assert (Exact : forall e,
            PyDict.get (lower query) (item_index (init m)) = Some e ->
            In (item e) (all_items m) /\
            str_in (lower query) (lower (name (item e))) = true).
  { intros e G. apply get_In in G.
    destruct (Own _ _ G) as [Ek (its & Hm & Hit)]. split.
    - apply all_items_listed. now exists (category e), its.
    - rewrite <- Ek. apply str_in_refl. }
  split.
  - unfold get_item_by_name. intros it.
    destruct (PyDict.get (lower query) (item_index (init m))) as [e|] eqn:G.
    + intros [= <-]. now apply Exact.
    + destruct (search_items (init m) query) as [|x l] eqn:S; [discriminate|].
      intros [= <-]. apply Sound. now left.
  - split.
    + intros None_ it HIn.
      destruct (str_in (lower query) (lower (name it))) eqn:Hq; [|reflexivity].
      destruct (Complete _ HIn Hq) as (it' & H' & _).
      unfold get_item_by_name in None_.
      destruct (PyDict.get (lower query) (item_index (init m)));
        [discriminate|].
      destruct (search_items (init m) query); [destruct H'|discriminate].
    + intros No. unfold get_item_by_name.
      destruct (PyDict.get (lower query) (item_index (init m))) as [e|] eqn:G.
      * destruct (Exact _ eq_refl) as [HIn Hq]. rewrite (No _ HIn) in Hq.
        discriminate.
      * destruct (search_items (init m) query) as [|x l] eqn:S; [reflexivity|].
        destruct (Sound x) as [HIn Hq]; [now left|].
        rewrite (No _ HIn) in Hq. discriminate.
Qed.

Lemma fold_left_append_if {A : Type} (f : A -> bool) (l acc : list A) :
  fold_left (fun acc x => if f x then (acc ++ [x])%list else acc) l acc
  = (acc ++ filter f l)%list.
Proof.
  revert acc; induction l as [|x l IH]; intros acc; simpl.
  - now rewrite app_nil_r.
  - rewrite IH. destruct (f x); [|reflexivity].
    now rewrite <- List.app_assoc.
Qed.

Lemma filter_flat_map {A B : Type} (f : B -> bool) (g : A -> list B)
    (l : list A) :
  filter f (flat_map g l) = flat_map (fun x => filter f (g x)) l.
Proof.
  induction l as [|x l IH]; simpl; [reflexivity|].
  now rewrite filter_app, IH.
Qed.

Lemma popular_of_walk (m : menu) st :
  snd (fold_left index_category m st)
  = (snd st ++ filter is_popular (all_items m))%list.
Proof.
  revert st; induction m as [|[c its] m IH]; intros st; simpl.
  - now rewrite app_nil_r.
  - rewrite IH, filter_app, List.app_assoc. f_equal.
    unfold index_category; simpl. clear IH.
    revert st; induction its as [|it its IH]; intros st; simpl.
    + now rewrite app_nil_r.
    + rewrite IH. unfold index_item. fold (is_popular it).
      destruct (is_popular it); simpl; [|reflexivity].
      now rewrite <- List.app_assoc.
Qed.

(** [popular_items] of a loaded menu lists, in menu order, every listed
    item whose lowercased name contains one of the nine keywords, once for
    each time the menu lists it (the index keeps one item for a name, this
    list keeps all). *)
Theorem popular_items_of_loaded_menu (m : menu) :
  popular_items (init m) = filter is_popular (all_items m).
Proof.
  unfold init, build_search_index. simpl. now rewrite popular_of_walk.
Qed.

Lemma firstn_split {A : Type} (n : nat) (l : list A) :
  exists rest, l = (firstn n l ++ rest)%list.
Proof. exists (skipn n l). symmetry. apply firstn_skipn. Qed.

(** [get_popular_recommendations] returns a prefix of [popular_items].
    With a limit that is not negative it has [min limit n] items, where [n]
    is the number of popular items; a negative limit counts from the end,
    so that [-1] drops the last popular item and returns the others. *)
Theorem popular_recommendations_prefix (self : OishiiMenuManager)
    (limit : Z) :
  (exists rest,
     popular_items self
     = (get_popular_recommendations self limit ++ rest)%list) /\
  Z.of_nat (List.length (get_popular_recommendations self limit))
  = (if (0 <=? limit)%Z
     then Z.min limit (Z.of_nat (List.length (popular_items self)))
     else Z.max 0 (Z.of_nat (List.length (popular_items self)) + limit))%Z.
Proof.
  unfold get_popular_recommendations, slice_to.
  destruct (0 <=? limit)%Z eqn:E.
  - split; [apply firstn_split|]. rewrite length_firstn. lia.
  - split; [apply firstn_split|]. rewrite length_firstn. lia.
Qed.

Lemma vegetarian_of_walk (m : menu) (acc : list MenuItem) :
  fold_left
    (fun vegetarian_items (entry : string * list MenuItem) =>
       fold_left
         (fun vegetarian_items it =>
            if is_vegetarian it then (vegetarian_items ++ [it])%list
            else vegetarian_items)
         (snd entry) vegetarian_items)
    m acc
  = (acc ++ filter is_vegetarian (all_items m))%list.
Proof.
  revert acc; induction m as [|[c its] m IH]; intros acc; simpl.
  - now rewrite app_nil_r.
  - rewrite IH, fold_left_append_if, filter_app.
    now rewrite List.app_assoc.
Qed.

(** [get_vegetarian_items] returns, in menu order, exactly the listed items
    that carry the tag "vegetarian", each as often as the menu lists it;
    the tag is compared as written, so an item tagged "Vegetarian" is not
    returned. *)
Theorem vegetarian_items_of_menu (self : OishiiMenuManager) :
  get_vegetarian_items self
  = filter is_vegetarian (all_items (menu_data self)) /\
  (forall it, In it (get_vegetarian_items self) <->
              In it (all_items (menu_data self)) /\
              In "vegetarian" (tags it)).
Proof.
  assert (E : get_vegetarian_items self
              = filter is_vegetarian (all_items (menu_data self))).
  { unfold get_vegetarian_items. now rewrite vegetarian_of_walk. }
  split; [exact E|]. intros it. rewrite E, filter_In.
  unfold is_vegetarian. rewrite existsb_exists. split.
  - intros [H (t & Ht & Et)]. apply String.eqb_eq in Et as <-. now split.
  - intros [H Ht]. split; [exact H|].
    exists "vegetarian". split; [exact Ht|apply String.eqb_refl].
Qed.

Lemma get_first_key {V : Type} (k : string) (v : V) (d : PyDict.dict V) :
  NoDup (map fst d) -> In (k, v) d -> PyDict.get k d = Some v.
Proof.
  induction d as [|[k0 v0] d IH]; simpl; [easy|].
  intros ND H. inversion ND as [|? ? Hk ND']; subst.
  destruct H as [[= -> ->]|H].
  - now rewrite String.eqb_refl.
  - destruct (String.eqb k0 k) eqn:E; [|now apply IH].
    apply String.eqb_eq in E as ->. exfalso. apply Hk.
    now apply (in_map fst) in H.
Qed.

(** [get_category_items] raises nothing for a category the menu does not
    have: it returns the empty list.  For a category of the menu (a
    dictionary, so its keys are distinct) it returns the items listed
    under it. *)
Theorem category_items_or_empty (m : menu) (cat : string) :
  NoDup (map fst m) ->
  (~ In cat (map fst m) -> get_category_items (init m) cat = []) /\
  (forall its, In (cat, its) m -> get_category_items (init m) cat = its) /\
  (forall it, In it (get_category_items (init m) cat) ->
              In it (all_items m)).
Proof.
  intros ND. unfold get_category_items, PyDict.get_default. simpl.
  split; [|split].
  - intros No. destruct (PyDict.get cat m) as [its|] eqn:G; [|reflexivity].
    apply get_In in G. exfalso. apply No. now apply (in_map fst) in G.
  - intros its H. now rewrite (get_first_key _ _ _ ND H).
  - intros it. destruct (PyDict.get cat m) as [its|] eqn:G; [|intros []].
    apply get_In in G. intros H. apply all_items_listed. now exists cat, its.
Qed.

Lemma category_items_witness :
  get_category_items (init Samples.sample_menu) "Desserts" = [] /\
  get_category_items (init Samples.sample_menu) "Sushi"
  = [Samples.salmon_sushi].
Proof.
  assert (ND : NoDup (map fst Samples.sample_menu)).
  { simpl. repeat constructor; simpl; intuition discriminate. }
  destruct (category_items_or_empty Samples.sample_menu "Desserts" ND)
    as (No & _ & _).
  destruct (category_items_or_empty Samples.sample_menu "Sushi" ND)
    as (_ & Yes & _).
  split.
  - apply No. simpl. intuition discriminate.
  - apply Yes. simpl. tauto.
Defined.

(** An exact name wins over the substring search, in any letter case: when
    the menu lists an item whose name equals the query up to case,
    [get_item_by_name] returns a listed item with that name up to case,
    also when other names that contain the query come earlier in the
    index. *)
Theorem exact_name_wins_in_any_case (m : menu) (query : string)
    (it : MenuItem) :
  In it (all_items m) -> lower (name it) = lower query ->
  exists it',
    get_item_by_name (init m) query = Some it' /\
    In it' (all_items m) /\ lower (name it') = lower query /\
    Some it' = last_named (lower query) (all_items m).
Proof.
  intros HIn E.
  destruct (last_named_found _ _ _ HIn E) as (it' & F & HIn' & E').
  exists it'. unfold get_item_by_name.
  pose proof (exact_lookup_init m (lower query)) as L. rewrite F in L.
  destruct (PyDict.get (lower query) (item_index (init m))) as [e|];
    [|discriminate].
  injection L as ->. now repeat split.
Qed.

Lemma exact_name_wins_witness :
  exists it',
    get_item_by_name (init Samples.sample_menu) "SALMON roll" = Some it' /\
    In it' (all_items Samples.sample_menu) /\
    lower (name it') = lower "SALMON roll" /\
    Some it' = last_named (lower "SALMON roll")
                          (all_items Samples.sample_menu).
Proof.
  apply (exact_name_wins_in_any_case Samples.sample_menu "SALMON roll"
           Samples.salmon_roll).
  - simpl. tauto.
  - reflexivity.
Defined.

End MenuMoreFacts.

(** ** The extracted lines *)

Module ExtractMoreFacts.
Import PyStr PyNum Menu Extract ExtractMore Reading.
Import PyStrFacts MenuFacts MenuMoreFacts RegexFacts ExtractClaims.
Import BotClaims PricingClaims.
Local Open Scope string_scope.

Lemma qty_word_range (w : string) :
  (1 <= PyDict.get_default w 1%Z qty_map <= 5)%Z.
Proof.
  unfold PyDict.get_default, qty_map. cbn [PyDict.get].
  repeat match goal with
         | |- context [String.eqb ?a w] => destruct (String.eqb a w)
         end; lia.
Qed.

Lemma quantity_for_range (pattern text : string) :
  (1 <= quantity_for pattern text <= 5)%Z.
Proof.
  unfold quantity_for. destruct (re_search_qty pattern text); [|lia].
  apply qty_word_range.
Qed.

(** Every extracted line has a quantity between 1 and 5 and empty
    modifications, whatever is said: no number word beyond "five", no digit
    and no later correction raises it. *)
Theorem extracted_quantity_between_1_and_5
    (self : OishiiMenuManager) (conversation_history : list Msg)
    (l : OrderLine) :
  In l (extract_items_from_conversation self conversation_history) ->
  (1 <= ol_quantity l <= 5)%Z /\ ol_modifications l = "".
Proof.
  unfold extract_items_from_conversation. rewrite in_flat_map.
  intros ([pattern item_name] & _ & H).
  apply lines_for_In in H as (_ & mi & _ & ->). cbn.
  split; [apply quantity_for_range|reflexivity].
Qed.

Lemma extracted_quantity_witness :
  (1 <= 2 <= 5)%Z /\ "" = "".
Proof.
  apply (extracted_quantity_between_1_and_5 (init Samples.sample_menu)
           Samples.completed_call
           (mkLine "California Roll" (PyFloat 7.28%float) 2 "")).
  left. reflexivity.
Defined.

Lemma lines_for_length (self : OishiiMenuManager) (text : string)
    (pat : string * string) :
  List.length (lines_for self text pat) <= 1.
Proof.
  destruct pat as [pattern item_name]. unfold lines_for.
  destruct (str_in pattern text); [|simpl; lia].
  destruct (get_item_by_name self item_name); simpl; lia.
Qed.

Lemma flat_map_length_le {A B : Type} (f : A -> list B) (l : list A) :
  (forall x, List.length (f x) <= 1) ->
  List.length (flat_map f l) <= List.length l.
Proof.
  intros H. induction l as [|x l IH]; simpl; [lia|].
  rewrite List.length_app. specialize (H x). lia.
Qed.

Lemma flat_map_nil {A B : Type} (f : A -> list B) (l : list A) :
  (forall x, In x l -> f x = []) -> flat_map f l = [].
Proof.
  intros H. induction l as [|x l IH]; simpl; [reflexivity|].
  rewrite (H x) by now left. apply IH. intros y Hy. apply H. now right.
Qed.

(** The extraction yields at most eight lines, one for a phrase of the
    table however often the phrase is said, and none when no phrase of the
    table occurs in the lowercased text. *)
Theorem extraction_yields_at_most_eight_lines
    (self : OishiiMenuManager) (conversation_history : list Msg) :
  List.length (extract_items_from_conversation self conversation_history)
  <= 8 /\
  ((forall pattern item_name,
      In (pattern, item_name) item_patterns ->
      str_in pattern (full_conversation conversation_history) = false) ->
   extract_items_from_conversation self conversation_history = []).
Proof.
  unfold extract_items_from_conversation. split.
  - change 8 with (List.length item_patterns).
    apply flat_map_length_le. intros pat. apply lines_for_length.
  - intros No. apply flat_map_nil. intros [pattern item_name] H.
    unfold lines_for. now rewrite (No _ _ H).
Qed.

Lemma filter_spoken_idem (conv : list Msg) :
  filter is_spoken (filter is_spoken conv) = filter is_spoken conv.
Proof.
  induction conv as [|msg conv IH]; simpl; [reflexivity|].
  destruct (is_spoken msg) eqn:E; simpl; [|exact IH].
  now rewrite E, IH.
Qed.

Lemma full_conversation_spoken (conv : list Msg) :
  full_conversation (filter is_spoken conv) = full_conversation conv.
Proof.
  unfold full_conversation. fold is_spoken. now rewrite filter_spoken_idem.
Qed.

Lemma full_conversation_lower (conv : list Msg) :
  full_conversation (map lower_msg conv) = full_conversation conv.
Proof.
  unfold full_conversation. fold is_spoken. rewrite !lower_join. f_equal.
  induction conv as [|msg conv IH]; simpl; [reflexivity|].
  unfold is_spoken at 1 3. cbn [lower_msg role].
  fold (is_spoken msg). destruct (is_spoken msg); simpl; [|exact IH].
  rewrite lower_idem. f_equal. exact IH.
Qed.

(** The extraction reads the user and assistant messages only, and reads
    them in lower case: dropping the messages of any other role, or
    changing the case of letters in the contents, changes no line. *)
Theorem extraction_reads_spoken_text_caselessly
    (self : OishiiMenuManager) (conversation_history : list Msg) :
  extract_items_from_conversation self
    (filter is_spoken conversation_history)
  = extract_items_from_conversation self conversation_history /\
  extract_items_from_conversation self (map lower_msg conversation_history)
  = extract_items_from_conversation self conversation_history.
Proof.
  unfold extract_items_from_conversation.
  now rewrite full_conversation_spoken, full_conversation_lower.
Qed.

(** On a loaded menu every extracted line is a snapshot of a listed item:
    it carries the name and the price of an item of the menu, and that
    item's lowercased name contains the lowercased name the pattern table
    gives for the phrase that was said (it need not be equal to it). *)
Theorem extracted_line_is_listed_item
    (m : menu) (conversation_history : list Msg) (l : OrderLine) :
  In l (extract_items_from_conversation (init m) conversation_history) ->
  exists pattern item_name it,
    In (pattern, item_name) item_patterns /\
    str_in pattern (full_conversation conversation_history) = true /\
    In it (all_items m) /\
    str_in (lower item_name) (lower (name it)) = true /\
    ol_name l = name it /\ ol_price l = price it.
Proof.
  unfold extract_items_from_conversation. rewrite in_flat_map.
  intros ([pattern item_name] & HIn & H).
  apply lines_for_In in H as (Hp & mi & Hg & ->).
  destruct (get_item_by_name_on_loaded_menu m item_name) as [Sound _].
  destruct (Sound _ Hg) as [Hm Hq].
  now exists pattern, item_name, mi.
Qed.

Lemma extracted_line_witness :
  exists pattern item_name it,
    In (pattern, item_name) item_patterns /\
    str_in pattern (full_conversation Samples.completed_call) = true /\
    In it (all_items Samples.sample_menu) /\
    str_in (lower item_name) (lower (name it)) = true /\
    "California Roll" = name it /\ PyFloat 7.28%float = price it.
Proof.
  apply (extracted_line_is_listed_item Samples.sample_menu
           Samples.completed_call
           (mkLine "California Roll" (PyFloat 7.28%float) 2 "")).
  left. reflexivity.
Defined.

End ExtractMoreFacts.

(** ** Pricing: whole numbers and extracted lines *)

Module PricingMoreFacts.
Import PyStr PyNum Menu Extract ExtractMore Reading.
Import PricingClaims ExtractMoreFacts.

Lemma sum_from_int (items : list PricedLine) (acc : Z) :
  Forall int_line items ->
  sum_from (PyInt acc) items
  = Ok (PyInt (acc + fold_right Z.add 0%Z (map int_value items))).
Proof.
  revert acc; induction items as [|l items IH]; intros acc H.
  - cbn. f_equal. f_equal. lia.
  - inversion H as [|? ? [Hp Hq] H']; subst. cbn [sum_from map fold_right].
    assert (E : num_mul (get_or (PyInt 0) (line_price l))
                        (get_or (PyInt 1) (line_quantity l))
                = Ok (PyInt (int_value l))).
    { unfold int_value.
      destruct Hp as [->|[p ->]], Hq as [->|[q ->]]; reflexivity. }
    rewrite E. cbn [bind num_add]. rewrite IH by exact H'.
    f_equal. f_equal. lia.
Qed.

(** With whole-number prices and quantities and no tax the total is exact:
    [calculate_total] returns the [int] sum of price times quantity, where
    a missing price counts as 0 and a missing quantity as 1, and it raises
    nothing however large the numbers are. *)
Theorem total_of_int_lines_is_exact (items : list PricedLine) :
  Forall int_line items ->
  calculate_total items false
  = Ok (PyInt (fold_right Z.add 0%Z (map int_value items))).
Proof.
  intros H. unfold calculate_total, subtotal_of.
  rewrite (sum_from_int items 0 H). reflexivity.
Qed.

Lemma total_of_int_lines_witness :
  calculate_total
    [mkPriced (Some (PyInt 1299)) (Some (PyInt 2));
     mkPriced None (Some (PyInt 7));
     mkPriced (Some (PyInt 398)) None] false
  = Ok (PyInt 2996).
Proof.
  apply (total_of_int_lines_is_exact
           [mkPriced (Some (PyInt 1299)) (Some (PyInt 2));
            mkPriced None (Some (PyInt 7));
            mkPriced (Some (PyInt 398)) None]).
  repeat (apply Forall_cons || apply Forall_nil);
    (split; simpl;
     first [left; reflexivity | right; eexists; reflexivity]).
Defined.

Lemma small_quantity_converts (q : Z) :
  (1 <= q <= 5)%Z -> exists fq, float_of_int q = Ok fq.
Proof.
  intros H.
  assert (C : q = 1%Z \/ q = 2%Z \/ q = 3%Z \/ q = 4%Z \/ q = 5%Z) by lia.
  destruct C as [->|[->|[->|[->| ->]]]]; eexists; vm_compute; reflexivity.
Qed.

Lemma total_of_float_priced (items : list PricedLine) (include_tax : bool) :
  Forall float_priced items ->
  exists total, calculate_total items include_tax = Ok total.
Proof.
  intros H. unfold calculate_total.
  destruct (subtotal_of_float_priced items H) as [E|[f E]]; rewrite E;
    cbn [bind]; destruct include_tax; eauto.
  - unfold tax_of. cbn [num_mul].
    change (float_of_int 0) with (Ok zero). cbn [bind num_add].
    change (float_of_int 0) with (Ok zero). cbn [bind]. eauto.
  - unfold tax_of. cbn [num_mul bind num_add]. eauto.
Qed.

(** Pricing what the extraction returns never raises: when the prices of
    the menu are [float]s, [calculate_total] applied to the lines extracted
    from any conversation returns a total, with or without tax. *)
Theorem pricing_extracted_lines_never_raises
    (m : menu) (conversation_history : list Msg) (include_tax : bool) :
  (forall it, In it (all_items m) -> exists f, price it = PyFloat f) ->
  exists total,
    calculate_total
      (map priced_of_line
         (extract_items_from_conversation (init m) conversation_history))
      include_tax
    = Ok total.
Proof.
  intros Floats. apply total_of_float_priced.
  apply Forall_forall. intros pl H.
  apply in_map_iff in H as (l & <- & Hl).
  destruct (extracted_quantity_between_1_and_5 _ _ _ Hl) as [Hq _].
  destruct (extracted_line_is_listed_item _ _ _ Hl)
    as (_ & _ & it & _ & _ & Hit & _ & _ & Hprice).
  destruct (Floats _ Hit) as [f Hf].
  destruct (small_quantity_converts _ Hq) as [fq Hfq].
  exists f, (ol_quantity l), fq. cbn. rewrite Hprice, Hf. now repeat split.
Qed.

Lemma pricing_extracted_lines_witness :
  exists total,
    calculate_total
      (map priced_of_line
         (extract_items_from_conversation (init Samples.sample_menu)
            Samples.completed_call))
      true
    = Ok total.
Proof.
  apply (pricing_extracted_lines_never_raises Samples.sample_menu
           Samples.completed_call true).
  intros it H. simpl in H.
  repeat (destruct H as [<-|H]; [eexists; reflexivity|]). destruct H.
Defined.

End PricingMoreFacts.

(** ** The customer details *)

Module CustomerFacts.
Import PyStr Extract Bot Customer CustomerReading.
Import PyStrFacts RegexFacts.
Local Open Scope string_scope.

Lemma digit_is_word (c : ascii) : is_digit c = true -> is_word c = true.
Proof.
  destruct c as [[] [] [] [] [] [] [] []]; simpl; intros H;
    first [reflexivity | discriminate H].
Qed.

Lemma digit_not_sep (c : ascii) : is_digit c = true -> is_phone_sep c = false.
Proof.
  destruct c as [[] [] [] [] [] [] [] []]; simpl; intros H;
    first [reflexivity | discriminate H].
Qed.

Lemma take_digits_split (n : nat) (s d rest : string) :
  take_digits n s = Some (d, rest) -> s = d ++ rest /\ digits n d.
Proof.
  revert s d rest; induction n as [|n IH]; intros s d rest; simpl.
  - intros [= <- <-]. now repeat split.
  - destruct s as [|c s]; [discriminate|].
    destruct (is_digit c) eqn:Dc; [|discriminate].
    destruct (take_digits n s) as [[d' r']|] eqn:T; [|discriminate].
    intros [= <- <-]. destruct (IH _ _ _ T) as [-> [L A]].
    unfold digits. simpl. rewrite L, Dc, A. now repeat split.
Qed.

Lemma take_digits_app (n : nat) (d rest : string) :
  digits n d -> take_digits n (d ++ rest) = Some (d, rest).
Proof.
  revert d; induction n as [|n IH]; intros d [L A].
  - destruct d; [reflexivity|discriminate].
  - destruct d as [|c d]; [discriminate|]. simpl in L, A |- *.
    apply andb_true_iff in A as [Dc A]. rewrite Dc.
    rewrite IH; [reflexivity|]. split; [lia|exact A].
Qed.

Lemma take_sep_split (s x rest : string) :
  take_sep s = (x, rest) -> s = x ++ rest /\ optional_sep x.
Proof.
  unfold take_sep, optional_sep. destruct s as [|c s].
  - intros [= <- <-]. now split; [|left].
  - destruct (is_phone_sep c) eqn:E; intros [= <- <-].
    + split; [reflexivity|]. unfold is_phone_sep in E.
      apply orb_true_iff in E as [E|E]; apply Ascii.eqb_eq in E as ->;
        [right; left|right; right]; reflexivity.
    + now split; [|left].
Qed.

(** A separator before a digit is taken, and nothing is taken where the
    digit comes at once. *)
Lemma take_sep_app (x d rest : string) (n : nat) :
  optional_sep x -> digits (S n) d ->
  take_sep (x ++ d ++ rest) = (x, d ++ rest).
Proof.
  intros Hx [L A]. destruct d as [|c d]; [discriminate|].
  simpl in A. apply andb_true_iff in A as [Dc _].
  destruct Hx as [->|[->| ->]]; try reflexivity.
  cbn [append take_sep]. now rewrite (digit_not_sep _ Dc).
Qed.

Lemma phone_here_shape (s p : string) :
  phone_here s = Some p <->
  exists post, s = p ++ post /\ phone_shape p /\ at_word_end post = true.
Proof.
  unfold phone_here. split.
  - destruct (take_digits 3 s) as [[a r1]|] eqn:T1; [|discriminate].
    destruct (take_sep r1) as [s1 r2] eqn:S1.
    destruct (take_digits 3 r2) as [[b r3]|] eqn:T2; [|discriminate].
    destruct (take_sep r3) as [s2 r4] eqn:S2.
    destruct (take_digits 4 r4) as [[c r5]|] eqn:T3; [|discriminate].
    destruct (at_word_end r5) eqn:B; [|discriminate]. intros [= <-].
    apply take_digits_split in T1 as [-> Da].
    apply take_sep_split in S1 as [-> H1].
    apply take_digits_split in T2 as [-> Db].
    apply take_sep_split in S2 as [-> H2].
    apply take_digits_split in T3 as [-> Dc].
    exists r5. split; [now rewrite !app_assoc|]. split; [|exact B].
    now exists a, s1, b, s2, c.
  - intros (post & -> & (a & s1 & b & s2 & c & -> & Da & H1 & Db & H2 & Dc)
            & B).
    rewrite !app_assoc.
    rewrite (take_digits_app 3 a _ Da).
    rewrite (take_sep_app s1 b _ 2 H1 Db).
    rewrite (take_digits_app 3 b _ Db).
    rewrite (take_sep_app s2 c _ 3 H2 Dc).
    rewrite (take_digits_app 4 c _ Dc).
    now rewrite B.
Qed.

Lemma phone_search_unfold (after_word : bool) (s : string) :
  phone_search after_word s
  = match (if after_word then None else phone_here s) with
    | Some phone => Some phone
    | None =>
        match s with
        | "" => None
        | String c s' => phone_search (is_word c) s'
        end
    end.
Proof. destruct s; reflexivity. Qed.

Lemma phone_site_head (after_word : bool) (s p : string) :
  phone_site after_word s "" p <->
  after_word = false /\ phone_here s = Some p.
Proof.
  unfold phone_site. rewrite phone_here_shape. cbn [append ends_in_word].
  split.
  - intros (post & E & Sh & W & B). split; [exact W|]. now exists post.
  - intros (W & post & E & Sh & B). now exists post.
Qed.

Lemma phone_site_cons (after_word : bool) (s pre p : string) (c : ascii) :
  phone_site after_word (String c s) (String c pre) p <->
  phone_site (is_word c) s pre p.
Proof.
  unfold phone_site. cbn [append ends_in_word].
  split; intros (post & E & H); exists post; (split; [|exact H]).
  - now injection E.
  - now rewrite E.
Qed.

Lemma phone_shape_nonempty (p : string) : phone_shape p -> p <> "".
Proof.
  intros (a & s1 & b & s2 & c & -> & [La _] & _).
  destruct a; [discriminate La|discriminate].
Qed.

Lemma phone_site_uncons (after_word : bool) (s pre p : string) (c : ascii) :
  phone_site after_word (String c s) pre p ->
  pre = "" \/ exists pre', pre = String c pre'.
Proof.
  intros (post & E & _). destruct pre as [|d pre]; [now left|].
  right. exists pre. cbn in E. now injection E as ->.
Qed.

(** The search returns the number at the leftmost place that has one. *)
Lemma phone_search_leftmost (after_word : bool) (s p : string) :
  phone_search after_word s = Some p <->
  exists pre,
    phone_site after_word s pre p /\
    forall pre' p', phone_site after_word s pre' p' ->
                    String.length pre <= String.length pre'.
Proof.
  revert after_word; induction s as [|c s IH]; intros after_word;
    rewrite phone_search_unfold.
  - split.
    + destruct after_word; [discriminate|].
      destruct (phone_here "") as [p0|] eqn:H; [|discriminate].
      intros [= <-]. exists "". split; [now apply phone_site_head|].
      intros; simpl; lia.
    + intros (pre & (post & E & Sh & _) & _). exfalso.
      apply phone_shape_nonempty in Sh. destruct pre, p; simpl in E; easy.
  - destruct (if after_word then None else phone_here (String c s))
      as [p0|] eqn:H.
    + assert (Site : phone_site after_word (String c s) "" p0).
      { apply phone_site_head. destruct after_word; [discriminate|].
        now split. }
      split.
      * intros [= <-]. exists "". split; [exact Site|]. intros; simpl; lia.
      * intros (pre & S & Min). specialize (Min _ _ Site).
        destruct pre; [|simpl in Min; lia].
        apply phone_site_head in S as [-> S].
        apply phone_site_head in Site as [_ Site]. congruence.
    + assert (NoHead : forall p', ~ phone_site after_word (String c s) "" p').
      { intros p' S. apply phone_site_head in S as [-> S].
        rewrite S in H. discriminate. }
      rewrite IH. split.
      * intros (pre & S & Min). exists (String c pre). split.
        -- now apply phone_site_cons.
        -- intros pre' p' S'.
           destruct (phone_site_uncons _ _ _ _ _ S') as [->|[pre'' ->]].
           ++ now apply NoHead in S'.
           ++ apply phone_site_cons in S'. specialize (Min _ _ S').
              simpl; lia.
      * intros (pre & S & Min).
        destruct (phone_site_uncons _ _ _ _ _ S) as [->|[pre'' ->]].
        -- now apply NoHead in S.
        -- exists pre''. split; [now apply phone_site_cons in S|].
           intros pre' p' S'. apply (phone_site_cons after_word _ _ _ c) in S'.
           specialize (Min _ _ S'). simpl in Min; lia.
Qed.

Lemma phone_search_none (after_word : bool) (s : string) :
  phone_search after_word s = None <->
  forall pre p, ~ phone_site after_word s pre p.
Proof.
  split.
  - intros N pre p S.
    assert (exists p0, phone_search after_word s = Some p0);
      [|destruct H as [p0 H]; congruence].
    clear N. revert after_word pre S; induction s as [|c s IH];
      intros after_word pre S; rewrite phone_search_unfold.
    + destruct S as (post & E & Sh & _). exfalso.
      apply phone_shape_nonempty in Sh. destruct pre, p; simpl in E; easy.
    + destruct (if after_word then None else phone_here (String c s))
        as [p0|] eqn:H; [now exists p0|].
      destruct (phone_site_uncons _ _ _ _ _ S) as [->|[pre'' ->]].
      * apply phone_site_head in S as [-> S]. rewrite S in H. discriminate.
      * apply phone_site_cons in S. now apply IH in S.
  - intros No. destruct (phone_search after_word s) as [p|] eqn:F;
      [|reflexivity].
    apply phone_search_leftmost in F as (pre & S & _). now apply No in S.
Qed.

Lemma digits_length_app (a s1 b s2 c : string) :
  digits 3 a -> optional_sep s1 -> digits 3 b -> optional_sep s2 ->
  digits 4 c ->
  10 <= String.length (a ++ s1 ++ b ++ s2 ++ c) <= 12.
Proof.
  intros [La _] H1 [Lb _] H2 [Lc _]. rewrite !length_app, La, Lb, Lc.
  destruct H1 as [->|[->| ->]], H2 as [->|[->| ->]]; simpl; lia.
Qed.

(** On a conversation text of ASCII characters, the phone number of the
    customer details is the leftmost run of the text that reads three,
    three and four digits, each of the first two groups with or without a
    hyphen or dot after it, and that no letter, digit or underscore
    touches; it is empty exactly when the text has no such run.  A number
    that is found is ten to twelve characters of the text.  The email is
    always empty. *)
Theorem customer_phone_is_leftmost_number (conversation_history : list Msg) :
  isascii (join " " (map content conversation_history)) = true ->
  cust_email (extract_customer_info conversation_history) = "" /\
  (forall pre p,
     phone_site false (join " " (map content conversation_history)) pre p ->
     (forall pre' p',
        phone_site false (join " " (map content conversation_history))
                   pre' p' ->
        String.length pre <= String.length pre') ->
     cust_phone (extract_customer_info conversation_history) = p) /\
  (cust_phone (extract_customer_info conversation_history) = "" <->
   forall pre p,
     ~ phone_site false (join " " (map content conversation_history))
                  pre p) /\
  (cust_phone (extract_customer_info conversation_history) <> "" ->
   phone_shape (cust_phone (extract_customer_info conversation_history)) /\
   str_in (cust_phone (extract_customer_info conversation_history))
          (join " " (map content conversation_history)) = true /\
   10 <= String.length
           (cust_phone (extract_customer_info conversation_history)) <= 12).
Proof.
  intros _.
  unfold extract_customer_info. cbn [cust_email cust_phone].
  set (text := join " " (map content conversation_history)).
  split; [reflexivity|]. split; [|split].
  - intros pre p S Min.
    assert (F : phone_search false text = Some p).
    { apply phone_search_leftmost. now exists pre. }
    now rewrite F.
  - destruct (phone_search false text) as [p|] eqn:F.
    + apply phone_search_leftmost in F as (pre & S & _). split.
      * intros ->. destruct S as (_ & _ & Sh & _).
        now apply phone_shape_nonempty in Sh.
      * intros No. now apply No in S.
    + split; [|reflexivity]. intros _. now apply phone_search_none.
  - destruct (phone_search false text) as [p|] eqn:F; [|easy]. intros _.
    apply phone_search_leftmost in F as (pre & (post & E & Sh & _) & _).
    split; [exact Sh|]. split.
    + rewrite E. apply str_in_app.
    + destruct Sh as (a & s1 & b & s2 & c & -> & Da & H1 & Db & H2 & Dc).
      now apply digits_length_app.
Qed.

Lemma customer_phone_witness :
  phone_shape
    (cust_phone
       (extract_customer_info
          [mkMsg "user" "You can reach me at 226-555-0199, thanks"])) /\
  str_in
    (cust_phone
       (extract_customer_info
          [mkMsg "user" "You can reach me at 226-555-0199, thanks"]))
    (join " "
       (map content
          [mkMsg "user" "You can reach me at 226-555-0199, thanks"]))
  = true /\
  10 <= String.length
          (cust_phone
             (extract_customer_info
                [mkMsg "user" "You can reach me at 226-555-0199, thanks"]))
     <= 12.
Proof.
  refine (proj2 (proj2 (proj2
            (customer_phone_is_leftmost_number
               [mkMsg "user" "You can reach me at 226-555-0199, thanks"]
               _))) _).
  - reflexivity.
  - discriminate.
Defined.

(** *** The name *)

Lemma upper_of_lower_letter (c : ascii) :
  is_lower_letter c = true ->
  is_lower_letter (upper_char c) = false /\
  is_upper_letter (upper_char c) = true.
Proof.
  destruct c as [[] [] [] [] [] [] [] []]; simpl; intros H;
    first [discriminate H | split; reflexivity].
Qed.

Lemma lower_of_upper_letter (c : ascii) :
  is_upper_letter c = true ->
  is_lower_letter c = false /\ is_lower_letter (lower_char c) = true.
Proof.
  destruct c as [[] [] [] [] [] [] [] []]; simpl; intros H;
    first [discriminate H | split; reflexivity].
Qed.

Lemma title_from_idem (after_letter : bool) (s : string) :
  title_from after_letter (title_from after_letter s)
  = title_from after_letter s.
Proof.
  revert after_letter; induction s as [|c s IH]; intros after_letter;
    [reflexivity|].
  cbn [title_from]. destruct (is_lower_letter c) eqn:Lc.
  - destruct after_letter; cbn [title_from].
    + now rewrite Lc, IH.
    + destruct (upper_of_lower_letter c Lc) as [L U].
      now rewrite L, U, IH.
  - destruct (is_upper_letter c) eqn:Uc.
    + destruct (lower_of_upper_letter c Uc) as [_ L].
      destruct after_letter; cbn [title_from].
      * now rewrite L, IH.
      * now rewrite Lc, Uc, IH.
    + cbn [title_from]. now rewrite Lc, Uc, IH.
Qed.

Lemma app_assoc3 (a b c d : string) :
  (a ++ b ++ c) ++ d = a ++ b ++ c ++ d.
Proof. now rewrite !app_assoc. Qed.

Lemma name_group_words (s g : string) :
  name_group s = Some g ->
  one_or_two_words g /\ exists rest, s = g ++ rest.
Proof.
  unfold name_group.
  destruct (span is_word s) as [w1 r1] eqn:E1.
  apply span_split in E1 as [-> A1].
  destruct w1 as [|c1 w1]; [discriminate|].
  destruct (span is_space r1) as [ws r2] eqn:E2.
  apply span_split in E2 as [-> A2].
  destruct (span is_word r2) as [w2 r3] eqn:E3.
  apply span_split in E3 as [-> A3].
  destruct ws as [|c2 ws]; [|destruct w2 as [|c3 w2]]; intros [= <-].
  - split; [now left|]. now eexists.
  - split; [now left|]. now eexists.
  - split.
    + right. exists (String c1 w1), (String c2 ws), (String c3 w2).
      now repeat split.
    + exists r3.
      exact (eq_sym (app_assoc3 (String c1 w1) (String c2 ws)
                                (String c3 w2) r3)).
Qed.

Lemma prefix_ci_split (literal s rest : string) :
  prefix_ci literal s = Some rest -> exists read, s = read ++ rest.
Proof.
  revert s; induction literal as [|a literal IH]; intros s; simpl.
  - intros [= <-]. now exists "".
  - destruct s as [|c s]; [discriminate|].
    destruct (Ascii.eqb _ _); [|discriminate].
    intros H. destruct (IH _ H) as [read ->]. now exists (String c read).
Qed.

Lemma search_first_split (here : string -> option string) (s g : string) :
  search_first here s = Some g ->
  exists pre suffix, s = pre ++ suffix /\ here suffix = Some g.
Proof.
  induction s as [|c s IH]; cbn [search_first].
  - destruct (here "") eqn:H; [|discriminate]. intros [= <-].
    now exists "", "".
  - destruct (here (String c s)) eqn:H.
    + intros [= <-]. now exists "", (String c s).
    + intros F. destruct (IH F) as (pre & suffix & -> & H').
      now exists (String c pre), suffix.
Qed.

Lemma name_pattern_words (here : string -> option string) (s g : string) :
  In here name_patterns -> here s = Some g ->
  one_or_two_words g /\ exists a b, s = a ++ g ++ b.
Proof.
  intros [<-|[<-|[<-|[]]]].
  - unfold my_name_is_here.
    destruct (prefix_ci _ s) as [rest|] eqn:P; [|discriminate].
    apply prefix_ci_split in P as [read ->]. intros G.
    apply name_group_words in G as [W [b ->]]. split; [exact W|].
    now exists read, b.
  - unfold this_is_here.
    destruct (prefix_ci _ s) as [rest|] eqn:P; [|discriminate].
    apply prefix_ci_split in P as [read ->]. intros G.
    apply name_group_words in G as [W [b ->]]. split; [exact W|].
    now exists read, b.
  - unfold name_s_here.
    destruct (prefix_ci _ s) as [rest|] eqn:P; [|discriminate].
    apply prefix_ci_split in P as [read ->].
    destruct (span is_possessive rest) as [poss r1] eqn:E1.
    apply span_split in E1 as [-> _].
    destruct (span is_space r1) as [ws r2] eqn:E2.
    apply span_split in E2 as [-> _].
    destruct ws as [|c ws]; [discriminate|]. intros G.
    apply name_group_words in G as [W [b ->]]. split; [exact W|].
    exists (read ++ poss ++ String c ws), b. now rewrite !app_assoc.
Qed.

Lemma first_name_match_found (patterns : list (string -> option string))
    (text : string) :
  first_name_match patterns text = ""
  /\ (forall here, In here patterns -> search_first here text = None)
  \/ exists here found,
       In here patterns /\ search_first here text = Some found /\
       first_name_match patterns text = title found.
Proof.
  induction patterns as [|here later IH]; cbn [first_name_match].
  - left. split; [reflexivity|intros ? []].
  - destruct (search_first here text) as [found|] eqn:F.
    + right. exists here, found. repeat split; [now left|exact F].
    + destruct IH as [[E No]|(h & found & HIn & F' & E)].
      * left. split; [exact E|]. intros h [<-|Hh]; [exact F|now apply No].
      * right. exists h, found. repeat split; [now right|exact F'|exact E].
Qed.

(** On a conversation text of ASCII characters, the name of the customer
    details is in title case already (applying [title] again changes
    nothing).  When it is not empty it is the title form of a piece of the
    text that is one word, or two words and the white space between them;
    it is empty when none of the three patterns matches anywhere in the
    text. *)
Theorem customer_name_is_titled_piece (conversation_history : list Msg) :
  isascii (join " " (map content conversation_history)) = true ->
  title (cust_name (extract_customer_info conversation_history))
  = cust_name (extract_customer_info conversation_history) /\
  (cust_name (extract_customer_info conversation_history) <> "" ->
   exists found,
     cust_name (extract_customer_info conversation_history) = title found /\
     one_or_two_words found /\
     str_in found (join " " (map content conversation_history)) = true) /\
  ((forall here, In here name_patterns ->
      search_first here (join " " (map content conversation_history))
      = None) ->
   cust_name (extract_customer_info conversation_history) = "").
Proof.
  intros _.
  unfold extract_customer_info. cbn [cust_name].
  set (text := join " " (map content conversation_history)).
  destruct (first_name_match_found name_patterns text)
    as [[E No]|(here & found & HIn & F & E)]; rewrite E.
  - repeat split; easy.
  - split; [apply title_from_idem|]. split.
    + intros _. exists found. split; [reflexivity|].
      apply search_first_split in F as (pre & suffix & Et & H).
      destruct (name_pattern_words _ _ _ HIn H) as [W (a & b & ->)].
      split; [exact W|]. rewrite Et, <- app_assoc. apply str_in_app.
    + intros No. rewrite (No _ HIn) in F. discriminate.
Qed.

Lemma customer_name_witness :
  exists found,
    cust_name
      (extract_customer_info [mkMsg "user" "Hello, my name is john smith"])
    = title found /\
    one_or_two_words found /\
    str_in found
      (join " " (map content [mkMsg "user" "Hello, my name is john smith"]))
    = true.
Proof.
  refine (proj1 (proj2
            (customer_name_is_titled_piece
               [mkMsg "user" "Hello, my name is john smith"] _)) _).
  - reflexivity.
  - discriminate.
Defined.

End CustomerFacts.

(** ** A session of the enhanced bot *)

Module SessionFacts.
Import PyStr PyNum Menu Extract Bot Customer CustomerReading Prompt.
Import PyStrFacts BotClaims CustomerFacts.
Local Open Scope string_scope.

Lemma join_cons (sep x : string) (parts : list string) :
  exists tail, join sep (x :: parts) = x ++ tail.
Proof.
  unfold join. destruct parts as [|y parts].
  - exists "". cbn. now rewrite app_empty_r.
  - now exists (sep ++ concat sep (y :: parts)).
Qed.

Lemma prompt_has (phrase : string) (menu_manager : OishiiMenuManager) :
  str_in phrase (lower prompt_closing) = true ->
  str_in phrase (lower (get_enhanced_restaurant_prompt menu_manager)) = true.
Proof.
  intros H. unfold get_enhanced_restaurant_prompt.
  rewrite !lower_app. now apply str_in_app_r, str_in_app_r.
Qed.

Section Session.
Variable menu_manager : OishiiMenuManager.
Variable prompt_manager : OishiiMenuManager.
Variable extract_customer_info : list Msg -> CustomerInfo.
Variable isoformat : Z -> string.
Variable Response : Type.
Variable webhook : list OrderData -> OrderData -> option Response.
Variable truthy : Response -> bool.

Local Abbreviation system_message :=
  (mkMsg "system" (get_enhanced_restaurant_prompt prompt_manager)).
Local Abbreviation handler :=
  (on_client_disconnected menu_manager extract_customer_info isoformat
     Response webhook truthy).
Local Abbreviation order_at :=
  (create_order_data menu_manager extract_customer_info isoformat).

(** The system prompt itself says "process this order" and "being
    prepared".  For a session whose messages still hold the system message
    the completion test therefore always succeeds: the handler never
    reports an unfinished conversation, and it posts an order exactly when
    the extraction finds an item. *)
Theorem system_prompt_opens_completion_gate
    (conversation : list Msg) (now : Z) (posts : list OrderData) :
  In system_message conversation ->
  fst (handler conversation now posts) <> NotCompleted /\
  (extract_items_from_conversation menu_manager conversation <> [] ->
   snd (handler conversation now posts)
   = (posts ++ [order_at conversation now])%list) /\
  (extract_items_from_conversation menu_manager conversation = [] ->
   handler conversation now posts = (NoItemsFound, posts)).
Proof.
  intros HIn.
  assert (Done : exists phrase,
             In phrase order_completion_indicators /\
             str_in phrase (conversation_text conversation) = true).
  { exists "process this order". split; [now left|].
    apply conversation_text_has with (msg := system_message);
      [exact HIn|].
    apply prompt_has. vm_compute. reflexivity. }
  split; [|split].
  - pose proof (proj2 (completion_test conversation) Done) as T.
    unfold on_client_disconnected. fold (conversation_text conversation).
    rewrite T. cbn [create_order_data items].
    destruct (extract_items_from_conversation menu_manager conversation);
      [easy|].
    unfold send_order_to_n8n.
    destruct (webhook posts _) as [r|]; [destruct (truthy r)|]; easy.
  - intros Items. now apply handler_posts_once.
  - intros Empty.
    pose proof (proj2 (completion_test conversation) Done) as T.
    unfold on_client_disconnected. fold (conversation_text conversation).
    rewrite T. cbn [create_order_data items]. now rewrite Empty.
Qed.

(** The system prompt asks "dine-in, takeout, or delivery" and so contains
    "delivery".  For a session whose messages still hold the system
    message the order type is never the default "takeout": it is "dine-in"
    when "dine in" or "dining in" is said and "delivery" otherwise. *)
Theorem system_prompt_rules_out_takeout
    (conversation : list Msg) (now : Z) :
  In system_message conversation ->
  order_type (order_at conversation now) <> "takeout" /\
  order_type (order_at conversation now)
  = (if str_in "dine in" (conversation_text conversation)
        || str_in "dining in" (conversation_text conversation)
     then "dine-in" else "delivery").
Proof.
  intros HIn.
  assert (D : str_in "delivery" (conversation_text conversation) = true).
  { apply conversation_text_has with (msg := system_message);
      [exact HIn|].
    apply prompt_has. vm_compute. reflexivity. }
  cbn [create_order_data order_type]. unfold order_type_of. rewrite D.
  now destruct (str_in "dine in" (conversation_text conversation)
                || str_in "dining in" (conversation_text conversation)).
Qed.
End Session.

Lemma system_prompt_gate_witness :
  fst (on_client_disconnected (init Samples.sample_menu) Samples.no_customer
         Samples.no_isoformat bool Samples.accepting_webhook
         Samples.bool_truthy
         (Prompt.messages (init Samples.sample_menu) ++
          [mkMsg "user" "Do you have California Roll?"])%list 0%Z [])
  <> NotCompleted /\
  (extract_items_from_conversation (init Samples.sample_menu)
     (Prompt.messages (init Samples.sample_menu) ++
      [mkMsg "user" "Do you have California Roll?"])%list <> [] ->
   snd (on_client_disconnected (init Samples.sample_menu)
          Samples.no_customer Samples.no_isoformat bool
          Samples.accepting_webhook Samples.bool_truthy
          (Prompt.messages (init Samples.sample_menu) ++
           [mkMsg "user" "Do you have California Roll?"])%list 0%Z [])
   = ([] ++
      [create_order_data (init Samples.sample_menu) Samples.no_customer
         Samples.no_isoformat
         (Prompt.messages (init Samples.sample_menu) ++
          [mkMsg "user" "Do you have California Roll?"])%list 0%Z])%list) /\
  (extract_items_from_conversation (init Samples.sample_menu)
     (Prompt.messages (init Samples.sample_menu) ++
      [mkMsg "user" "Do you have California Roll?"])%list = [] ->
   on_client_disconnected (init Samples.sample_menu) Samples.no_customer
     Samples.no_isoformat bool Samples.accepting_webhook
     Samples.bool_truthy
     (Prompt.messages (init Samples.sample_menu) ++
      [mkMsg "user" "Do you have California Roll?"])%list 0%Z []
   = (NoItemsFound, [])).
Proof.
  apply (system_prompt_opens_completion_gate
           (init Samples.sample_menu) (init Samples.sample_menu)
           Samples.no_customer Samples.no_isoformat bool
           Samples.accepting_webhook Samples.bool_truthy).
  left. reflexivity.
Defined.

Lemma system_prompt_takeout_witness :
  order_type
    (create_order_data (init Samples.sample_menu) Samples.no_customer
       Samples.no_isoformat
       (Prompt.messages (init Samples.sample_menu) ++
        [mkMsg "user" "One California Roll for takeout please"])%list 0%Z)
  <> "takeout" /\
  order_type
    (create_order_data (init Samples.sample_menu) Samples.no_customer
       Samples.no_isoformat
       (Prompt.messages (init Samples.sample_menu) ++
        [mkMsg "user" "One California Roll for takeout please"])%list 0%Z)
  = "delivery".
Proof.
  destruct (system_prompt_rules_out_takeout
              (init Samples.sample_menu) (init Samples.sample_menu)
              Samples.no_customer Samples.no_isoformat
              (Prompt.messages (init Samples.sample_menu) ++
               [mkMsg "user" "One California Roll for takeout please"])%list
              0%Z) as [N E].
  - left. reflexivity.
  - split; [exact N|]. rewrite E. vm_compute. reflexivity.
Defined.

(** The system prompt gives the telephone number of the restaurant before
    anything the caller says.  With the system message first in the
    session, the phone number of the customer details is therefore always
    519-988-1688, whatever number the caller gives. *)
Theorem system_prompt_supplies_the_phone
    (prompt_manager : OishiiMenuManager) (said : list Msg) :
  cust_phone
    (Customer.extract_customer_info
       (Prompt.messages prompt_manager ++ said)%list)
  = "519-988-1688".
Proof.
  unfold Customer.extract_customer_info, Prompt.messages.
  cbn [cust_phone List.app map content].
  destruct (join_cons " " (get_enhanced_restaurant_prompt prompt_manager)
              (map content said)) as [tail ->].
  unfold get_enhanced_restaurant_prompt, get_menu_summary_for_ai.
  cbv zeta. rewrite !app_assoc.
  generalize (str_of_nat (List.length (categories prompt_manager)) ++
              summary_total ++ join ", " (categories prompt_manager) ++
              summary_popular_heading).
  intros middle.
  assert (F : forall popular_so_far later,
             fold_left add_popular later
               (summary_opening ++ popular_so_far)
             = summary_opening ++ fold_left add_popular later popular_so_far).
  { intros x later; revert x; induction later as [|e later IH];
      intros x; [reflexivity|].
    cbn [fold_left]. unfold add_popular at 2 4.
    now rewrite <- IH, app_assoc. }
  rewrite F, !app_assoc.
  generalize (fold_left add_popular popular_by_category middle ++
              summary_closing ++ prompt_closing ++ tail).
  intros rest. vm_compute. reflexivity.
Qed.

(** *** The name *)

Import SessionReading.

(** A phrase cannot run across a character it does not contain. *)
Lemma prefix_app_stop (p x y : string) (c : ascii) :
  has_char c p = false -> p <> "" ->
  String.prefix p (x ++ String c y) = String.prefix p x.
Proof.
  revert x; induction p as [|a p IH]; intros x Hc Hp; [easy|].
  cbn [has_char] in Hc. apply orb_false_iff in Hc as [Hac Hc].
  destruct x as [|b x]; cbn [append String.prefix].
  - destruct (ascii_dec a c) as [->|_]; [|reflexivity].
    now rewrite Ascii.eqb_refl in Hac.
  - destruct (ascii_dec a b) as [_|_]; [|reflexivity].
    destruct p as [|a' p]; [now destruct x|].
    now apply IH.
Qed.

Lemma str_in_app_stop (p x y : string) (c : ascii) :
  has_char c p = false -> p <> "" ->
  str_in p (x ++ String c y) = str_in p x || str_in p y.
Proof.
  intros Hc Hp. induction x as [|b x IH].
  - cbn [append str_in].
    pose proof (prefix_app_stop p "" y c Hc Hp) as E.
    cbn [append] in E. rewrite E.
    destruct p; [easy|reflexivity].
  - cbn [append str_in].
    change (String b (x ++ String c y)) with (String b x ++ String c y).
    rewrite (prefix_app_stop p (String b x) y c Hc Hp), IH.
    now rewrite orb_assoc.
Qed.

(** Nor can it start in a run of characters it does not contain. *)
Lemma str_in_skip_run (p d y : string) :
  (forall c, has_char c d = true -> has_char c p = false) -> p <> "" ->
  str_in p (d ++ y) = str_in p y.
Proof.
  intros Hd Hp. induction d as [|c d IH]; [reflexivity|].
  change (String c d ++ y) with ("" ++ String c (d ++ y)).
  rewrite str_in_app_stop; [| |exact Hp].
  - rewrite IH. + now destruct p.
    + intros c' H. apply Hd. cbn. now rewrite H, orb_true_r.
  - apply Hd. cbn. now rewrite Ascii.eqb_refl.
Qed.

Lemma uint_digits (d : Decimal.uint) :
  all_chars is_digit (NilEmpty.string_of_uint d) = true.
Proof. induction d; simpl; auto. Qed.

Lemma digit_not_in_this_is (c : ascii) :
  is_digit c = true -> has_char (lower_char c) "this is " = false.
Proof.
  destruct c as [[] [] [] [] [] [] [] []]; simpl; intros H;
    first [reflexivity | discriminate H].
Qed.

Lemma lower_digits_not_in_this_is (d : string) (c : ascii) :
  all_chars is_digit d = true ->
  has_char c (lower d) = true -> has_char c "this is " = false.
Proof.
  induction d as [|x d IH]; cbn [all_chars lower has_char]; [discriminate|].
  intros A H. apply andb_true_iff in A as [Dx A].
  apply orb_true_iff in H as [H|H]; [|now apply IH].
  apply Ascii.eqb_eq in H as ->. now apply digit_not_in_this_is.
Qed.

Lemma prefix_ci_lower (literal s rest : string) :
  prefix_ci literal s = Some rest ->
  String.prefix (lower literal) (lower s) = true.
Proof.
  revert s; induction literal as [|a literal IH]; intros s; simpl.
  - intros _. now destruct s.
  - destruct s as [|c s]; [discriminate|]. simpl.
    destruct (Ascii.eqb (lower_char a) (lower_char c)) eqn:E; [|discriminate].
    apply Ascii.eqb_eq in E as ->.
    destruct (ascii_dec (lower_char c) (lower_char c)) as [_|N]; [|easy].
    apply IH.
Qed.

Lemma this_is_here_prefix (s g : string) :
  this_is_here s = Some g -> String.prefix "this is " (lower s) = true.
Proof.
  unfold this_is_here.
  destruct (prefix_ci "this is " s) as [rest|] eqn:P; [|discriminate].
  intros _. exact (prefix_ci_lower _ _ _ P).
Qed.

(** The search for "this is" passes over a text that does not contain it
    and ends before a character that is not part of it. *)
Lemma search_this_is_skip (a b : string) (c : ascii) :
  has_char (lower_char c) "this is " = false ->
  str_in "this is " (lower a) = false ->
  search_first this_is_here (a ++ String c b)
  = search_first this_is_here (String c b).
Proof.
  intros Hc. induction a as [|x a IH]; [reflexivity|]. intros No.
  cbn [lower str_in] in No. apply orb_false_iff in No as [NoHead No].
  cbn [append search_first].
  destruct (this_is_here (String x (a ++ String c b))) as [g|] eqn:H.
  - apply this_is_here_prefix in H.
    change (String x (a ++ String c b)) with (String x a ++ String c b) in H.
    rewrite lower_app in H. cbn [lower] in H.
    change (String (lower_char x) (lower a) ++
            String (lower_char c) (lower b))
      with (lower (String x a) ++ String (lower_char c) (lower b)) in H.
    rewrite prefix_app_stop in H; [|exact Hc|easy].
    cbn [lower] in H. congruence.
  - now apply IH.
Qed.

Lemma fold_add_popular (later : list (string * list string))
    (summary : string) :
  fold_left add_popular later summary
  = summary ++ fold_left add_popular later "".
Proof.
  revert summary; induction later as [|e later IH]; intros summary.
  - cbn. now rewrite app_empty_r.
  - cbn [fold_left]. rewrite IH, (IH (add_popular "" e)).
    unfold add_popular. cbn [append]. now rewrite !app_assoc.
Qed.

Lemma summary_has_no_this_is (prompt_manager : OishiiMenuManager) :
  str_in "this is " (lower (join ", " (categories prompt_manager))) = false ->
  str_in "this is "
         (lower (prompt_opening ++ get_menu_summary_for_ai prompt_manager))
  = false.
Proof.
  intros Cats. unfold get_menu_summary_for_ai. cbv zeta.
  rewrite fold_add_popular. rewrite !lower_app.
  set (cats := lower (join ", " (categories prompt_manager))) in *.
  set (num := lower (str_of_nat (List.length (categories prompt_manager)))).
  set (fixed_end := lower (fold_left add_popular popular_by_category "")
                    ++ lower summary_closing).
  assert (E1 : exists so, lower prompt_opening ++ lower summary_opening
                          = so ++ String "("%char ""
                          /\ str_in "this is " so = false).
  { exists (drop_last (lower prompt_opening ++ lower summary_opening)).
    split; vm_compute; reflexivity. }
  destruct E1 as (so & E1 & No1).
  assert (E2 : exists st, lower summary_total = st ++ String "010"%char ""
                          /\ str_in "this is " st = false).
  { exists (drop_last (lower summary_total)).
    split; vm_compute; reflexivity. }
  destruct E2 as (st & E2 & No2).
  assert (E3 : exists h, lower summary_popular_heading
                         = String "010"%char h
                         /\ str_in "this is " (h ++ fixed_end) = false).
  { exists (behead (lower summary_popular_heading)).
    split; vm_compute; reflexivity. }
  destruct E3 as (h & E3 & No3).
  rewrite <- !app_assoc, E1, E2, E3. rewrite !app_assoc. cbn [append].
  rewrite str_in_app_stop, No1 by easy. cbn [orb].
  rewrite str_in_skip_run; [| |easy].
  - rewrite str_in_app_stop, No2 by easy. cbn [orb].
    rewrite str_in_app_stop, Cats by easy. cbn [orb].
    exact No3.
  - intros c. apply lower_digits_not_in_this_is. apply uint_digits.
Qed.

(** The greeting in the system prompt reads "This is Hana".  With the
    system message first in the session, a conversation text of ASCII
    characters, and unless "my name is ..." is said somewhere, the name of
    the customer details is therefore "Hana", also when the caller says
    "this is John": the second pattern stops at its first match, which is
    in the prompt.  (No category name of the menu may itself contain
    "this is ".) *)
Theorem system_prompt_names_the_customer_hana
    (prompt_manager : OishiiMenuManager) (said : list Msg) :
  isascii
    (join " " (map content (Prompt.messages prompt_manager ++ said)%list))
  = true ->
  str_in "this is " (lower (join ", " (categories prompt_manager))) = false ->
  search_first my_name_is_here
    (join " " (map content (Prompt.messages prompt_manager ++ said)%list))
  = None ->
  cust_name
    (Customer.extract_customer_info
       (Prompt.messages prompt_manager ++ said)%list)
  = "Hana".
Proof.
  intros _ Cats NoMyName.
  unfold Customer.extract_customer_info. cbn [cust_name].
  unfold name_patterns. cbn [first_name_match]. rewrite NoMyName.
  unfold Prompt.messages. cbn [List.app map content].
  destruct (join_cons " " (get_enhanced_restaurant_prompt prompt_manager)
              (map content said)) as [tail ->].
  unfold get_enhanced_restaurant_prompt.
  assert (E : exists pc, prompt_closing = String "010"%char pc /\
                         forall t, search_first this_is_here
                                     (String "010"%char (pc ++ t))
                                   = Some "Hana").
  { exists (behead prompt_closing). split; [vm_compute; reflexivity|].
    intros t. vm_compute. reflexivity. }
  destruct E as (pc & -> & Found).
  rewrite <- (app_assoc prompt_opening), !app_assoc. cbn [append].
  rewrite <- (app_assoc prompt_opening).
  rewrite search_this_is_skip.
  - now rewrite Found.
  - reflexivity.
  - now apply summary_has_no_this_is.
Qed.

Lemma system_prompt_names_witness :
  cust_name
    (Customer.extract_customer_info
       (Prompt.messages (init Samples.sample_menu) ++
        [mkMsg "user" "Hi, this is John Smith, 226-555-0199"])%list)
  = "Hana".
Proof.
  apply (system_prompt_names_the_customer_hana (init Samples.sample_menu)
           [mkMsg "user" "Hi, this is John Smith, 226-555-0199"]).
  - vm_compute. reflexivity.
  - vm_compute. reflexivity.
  - vm_compute. reflexivity.
Defined.

End SessionFacts.

(** ** Loading the menu once *)

Module LoaderFacts.
Import Menu Loader.

(** [get_menu_manager] loads the menu once.  After a call that returned a
    manager, every later call returns that same manager and leaves the
    global as it is, whatever the files hold by then; a call that raised
    leaves the global unset, so the next call reads the files again.  The
    file read is the default path, and the path one directory up only when
    the default path does not exist: a default file that exists but cannot
    be parsed is not replaced by the fallback. *)
Theorem menu_manager_is_loaded_once (fs : string -> read_outcome) :
  (forall global mgr,
     fst (get_menu_manager fs global) = Loaded mgr ->
     forall fs', get_menu_manager fs' (snd (get_menu_manager fs global))
                 = (Loaded mgr, Some mgr)) /\
  (fst (get_menu_manager fs None) = NotFoundRaised \/
   fst (get_menu_manager fs None) = OtherRaised ->
   snd (get_menu_manager fs None) = None) /\
  (forall m, fs default_menu_file = Parsed m ->
             get_menu_manager fs None = (Loaded (init m), Some (init m))) /\
  (forall m, fs default_menu_file = FileNotFound ->
             fs ("../" ++ default_menu_file)%string = Parsed m ->
             get_menu_manager fs None = (Loaded (init m), Some (init m))) /\
  (fs default_menu_file = OtherFailure ->
   get_menu_manager fs None = (OtherRaised, None)).
Proof.
  repeat split.
  - intros global mgr H fs'. destruct global as [m|]; cbn in H |- *.
    + now injection H as ->.
    + unfold initialize_menu_manager in H |- *.
      destruct (new_manager fs default_menu_file) as [m| |]; cbn in H |- *;
        try discriminate.
      now injection H as ->.
  - cbn. unfold initialize_menu_manager.
    destruct (new_manager fs default_menu_file); cbn; intros [H|H];
      first [reflexivity | discriminate H].
  - intros m H. cbn. unfold initialize_menu_manager, new_manager, load_menu.
    now rewrite H.
  - intros m H1 H2. cbn.
    unfold initialize_menu_manager, new_manager, load_menu.
    now rewrite H1, H2.
  - intros H. cbn. unfold initialize_menu_manager, new_manager, load_menu.
    now rewrite H.
Qed.

End LoaderFacts.

(** ** A session of the basic bot *)

Module BasicBotFacts.
Import PyStr PyNum Extract Bot BasicBot.
Import PyStrFacts BotClaims.
Local Open Scope string_scope.

Section Session.
Variable isoformat : Z -> string.
Variable Response : Type.
Variable webhook : list OrderData -> OrderData -> option Response.
Variable truthy : Response -> bool.

Local Abbreviation handler :=
  (BasicBot.on_client_disconnected isoformat Response webhook truthy).

(** The basic bot knows one dish.  In a session that still holds its
    system message (which itself says "process this order"), the handler
    posts an order exactly when "california roll" occurs in the lowercased
    user and assistant text, and the order is always the same: one
    California Roll at 12.99, takeout, no customer details, whatever
    quantity or other dish is named. *)
Theorem basic_bot_orders_one_california_roll
    (conversation : list Msg) (now : Z) (posts : list OrderData) :
  In (mkMsg "system" RESTAURANT_SYSTEM_PROMPT) conversation ->
  (str_in "california roll" (full_conversation conversation) = true ->
   snd (handler conversation now posts)
   = (posts ++
      [mkOrder (mkCustomer "" "" "")
               [mkLine "California Roll" (PyFloat 12.99%float) 1 ""]
               "takeout" "" (isoformat (now + ready_delay)%Z)])%list) /\
  (str_in "california roll" (full_conversation conversation) = false ->
   handler conversation now posts = (NoItemsFound, posts)).
Proof.
  intros HIn.
  assert (T : existsb
                (fun phrase =>
                   str_in phrase (lower (join " " (map content conversation))))
                completion_phrases = true).
  { apply existsb_exists. exists "process this order". split; [now left|].
    apply (conversation_text_has _ _ _ HIn). vm_compute. reflexivity. }
  unfold BasicBot.on_client_disconnected. rewrite T.
  unfold parse_order_from_conversation. fold (full_conversation conversation).
  split; intros H; rewrite H; cbn [items]; [|reflexivity].
  destruct (webhook posts _) as [r|]; [destruct (truthy r)|]; reflexivity.
Qed.
End Session.

Lemma basic_bot_witness :
  snd (BasicBot.on_client_disconnected Samples.no_isoformat bool
         Samples.accepting_webhook Samples.bool_truthy
         (BasicBot.messages ++
          [mkMsg "user" "Five California Roll and a Dragon Roll"])%list
         0%Z [])
  = [mkOrder (mkCustomer "" "" "")
             [mkLine "California Roll" (PyFloat 12.99%float) 1 ""]
             "takeout" "" ""].
Proof.
  refine (proj1 (basic_bot_orders_one_california_roll Samples.no_isoformat
                   bool Samples.accepting_webhook Samples.bool_truthy
                   (BasicBot.messages ++
                    [mkMsg "user" "Five California Roll and a Dragon Roll"])
                   0%Z [] _) _).
  - left. reflexivity.
  - vm_compute. reflexivity.
Defined.

End BasicBotFacts.

(** ** What the handler posts, and what the prompt lists *)

Module HandlerFacts.
Import PyStr PyNum Menu Extract Bot Prompt Reading.
Import PyStrFacts MenuFacts MenuMoreFacts ExtractMoreFacts SessionFacts.
Local Open Scope string_scope.

Section Handler.
Variable menu_manager : OishiiMenuManager.
Variable extract_customer_info : list Msg -> CustomerInfo.
Variable isoformat : Z -> string.
Variable Response : Type.
Variable webhook : list OrderData -> OrderData -> option Response.
Variable truthy : Response -> bool.

Local Abbreviation handler :=
  (on_client_disconnected menu_manager extract_customer_info isoformat
     Response webhook truthy).
Local Abbreviation order_at :=
  (create_order_data menu_manager extract_customer_info isoformat).

(** One run of the handler posts nothing or one order, and never an order
    without items.  What it posts is the order built from the conversation,
    with one to eight lines; it is posted once whether the webhook accepts
    it or not (a refused or failed request is reported, not repeated), and
    the run reports success exactly when the webhook answered with a true
    body. *)
Theorem handler_posts_at_most_one_order
    (messages : list Msg) (now : Z) (posts : list OrderData) :
  (snd (handler messages now posts) = posts /\
   (fst (handler messages now posts) = NoItemsFound \/
    fst (handler messages now posts) = NotCompleted)) \/
  (snd (handler messages now posts)
   = (posts ++ [order_at messages now])%list /\
   1 <= List.length (items (order_at messages now)) <= 8 /\
   (fst (handler messages now posts) = SentToKitchen \/
    fst (handler messages now posts) = FailedToProcess) /\
   (fst (handler messages now posts) = SentToKitchen <->
    exists r, webhook posts (order_at messages now) = Some r /\
              truthy r = true)).
Proof.
  unfold on_client_disconnected.
  destruct (existsb _ order_completion_indicators); [|left; split; auto].
  pose proof (proj1 (extraction_yields_at_most_eight_lines
                       menu_manager messages)) as Le.
  cbn [create_order_data items] in *.
  destruct (extract_items_from_conversation menu_manager messages)
    as [|l ls] eqn:E; [left; split; auto|].
  right. unfold send_order_to_n8n.
  destruct (webhook posts _) as [r|] eqn:W.
  - destruct (truthy r) eqn:T; cbn [fst snd].
    + repeat split; auto; [simpl; lia|]. intros _. now exists r.
    + repeat split; auto; [simpl; lia|discriminate|].
      intros (r' & [= <-] & T'). congruence.
  - cbn [fst snd]. repeat split; auto; [simpl; lia|discriminate|].
    intros (r' & [=] & _).
Qed.
End Handler.

Lemma join_has_part (sep x : string) (parts : list string) :
  In x parts -> str_in x (join sep parts) = true.
Proof.
  intros H. apply str_in_join with (x := x); [exact H|apply str_in_refl].
Qed.

(** The system prompt tells the assistant every category of the menu: the
    name of each category, as the menu file spells it, occurs in the
    prompt, and so does their number. *)
Theorem prompt_lists_every_category (menu_manager : OishiiMenuManager) :
  (forall c, In c (categories menu_manager) ->
             str_in c (get_enhanced_restaurant_prompt menu_manager) = true) /\
  str_in ("MENU CATEGORIES (" ++
          str_of_nat (List.length (categories menu_manager)) ++ " total):")
         (get_enhanced_restaurant_prompt menu_manager) = true.
Proof.
  unfold get_enhanced_restaurant_prompt, get_menu_summary_for_ai. cbv zeta.
  rewrite fold_add_popular.
  set (popular := fold_left add_popular popular_by_category "").
  set (num := str_of_nat (List.length (categories menu_manager))).
  split.
  - intros c H.
    destruct (str_in_split _ _ (join_has_part ", " c _ H)) as (a & b & E).
    rewrite E. apply str_in_iff.
    exists (prompt_opening ++ summary_opening ++ num ++ summary_total ++ a),
           (b ++ summary_popular_heading ++ popular ++ summary_closing ++
            prompt_closing).
    now rewrite !app_assoc.
  - assert (E : exists so, summary_opening = so ++ "MENU CATEGORIES (").
    { exists (Nat.iter 17 SessionReading.drop_last summary_opening).
      vm_compute. reflexivity. }
    destruct E as [so ->].
    assert (E : exists st, summary_total = " total):" ++ st).
    { exists Prompt.newline. reflexivity. }
    destruct E as [st ->].
    apply str_in_iff.
    exists (prompt_opening ++ so),
           (st ++ join ", " (categories menu_manager) ++
            summary_popular_heading ++ popular ++ summary_closing ++
            prompt_closing).
    now rewrite !app_assoc.
Qed.

End HandlerFacts.
